(** * dc.js base mixin: filter engine, render lifecycle, commit gate, geometry cache

    A shallow embedding of [src/base/base-mixin.js] (class [BaseMixin]) and of
    the five module-level default filter handlers, together with the fragment
    of the JavaScript value semantics these functions rely on (truthiness and
    the relational operators [<], [<=], [>=]).

    Conventions.
    - A JavaScript array is modelled by the list of its contents.  The default
      add and remove handlers update in place the array [_filters] refers to
      and [filters()] hands out that same array; what is modelled is the
      contents of [_filters] when a method returns.
    - A chart method is a computation [M A]: it reads and updates the chart
      fields, appends to a trace the calls it makes to code outside the class
      (dimension, listeners, DOM, chart registry, commit handler, filter
      handler), and either returns or throws.  After a throw only the trace
      is reported, not the fields.
    - Listeners, DOM calls and the registry fan-out are external collaborators:
      they appear in the trace only and are taken to return normally without
      re-entering the chart. *)

From Stdlib Require Import ZArith List String Ascii Bool Lia.
From Stdlib Require Import DecimalString.
Import ListNotations.

Local Open Scope string_scope.
Local Open Scope list_scope.
Local Open Scope Z_scope.

(* ================================================================= *)
(** ** JavaScript values *)

Module JS.

(** Numbers: NaN and the integers (as doubles: the safe integers, on which
    arithmetic is not needed here and relational comparison is that of [Z]).
    Fractions and the infinities are left out. *)
Inductive number : Type :=
| NaN
| Num (z : Z).

(** First-order data: primitives and (nested) arrays of them.  These are the
    values a dimension holds as keys and the raw values a user toggles. *)
#[warnings="-register-all"]
Inductive datum : Type :=
| DUndefined
| DNull
| DBool (b : bool)
| DNum (n : number)
| DStr (s : string)
| DArr (l : list datum).

(** A filter object as built by the [dc.filters] constructors: an array that
    additionally carries an [isFiltered] method and a [filterType] string. *)
Record filterObject : Type := {
  elements : list datum;
  isFiltered : datum -> bool;
  filterType : option string
}.

Inductive value : Type :=
| Data (d : datum)
| FilterObj (o : filterObject).

Coercion Data : datum >-> value.

Definition undefined : value := Data DUndefined.
Definition null : value := Data DNull.
Definition num (z : Z) : datum := DNum (Num z).

(** Primitive values, the results of ToPrimitive. *)
Inductive prim : Type :=
| PUndefined
| PNull
| PBool (b : bool)
| PNum (n : number)
| PStr (s : string).

Definition NumberToString (n : number) : string :=
  match n with
  | NaN => "NaN"
  | Num z => NilZero.string_of_int (Z.to_int z)
  end.

(** ToString on data.  [Array.prototype.toString] is [join(",")], in which
    [undefined] and [null] elements print as the empty string. *)
Fixpoint ToString (d : datum) : string :=
  match d with
  | DUndefined => "undefined"
  | DNull => "null"
  | DBool true => "true"
  | DBool false => "false"
  | DNum n => NumberToString n
  | DStr s => s
  | DArr l =>
      (fix join (l : list datum) : string :=
         match l with
         | [] => ""
         | x :: r =>
             let sx := match x with
                       | DUndefined | DNull => ""
                       | _ => ToString x
                       end in
             match r with
             | [] => sx
             | _ :: _ => (sx ++ "," ++ join r)%string
             end
         end) l
  end.

(** ToPrimitive with hint Number: an array has no primitive [valueOf], so its
    [toString] is used. *)
Definition ToPrimitive (v : value) : prim :=
  match v with
  | Data DUndefined => PUndefined
  | Data DNull => PNull
  | Data (DBool b) => PBool b
  | Data (DNum n) => PNum n
  | Data (DStr s) => PStr s
  | Data (DArr l) => PStr (ToString (DArr l))
  | FilterObj o => PStr (ToString (DArr (elements o)))
  end.

Definition digit_of (c : ascii) : option Z :=
  let n := Z.of_nat (nat_of_ascii c) in
  if (48 <=? n) && (n <=? 57) then Some (n - 48) else None.

Fixpoint digits (s : string) (acc : Z) : option Z :=
  match s with
  | EmptyString => Some acc
  | String c r =>
      match digit_of c with
      | Some k => digits r (10 * acc + k)
      | None => None
      end
  end.

(** StringToNumber for the strings that occur here: the empty string is 0, a
    signed decimal integer literal is its value, other text is NaN.  (White
    space, fractions, exponents, radix prefixes and "Infinity" are not
    treated: strings of those shapes are outside the model.) *)
Definition StringToNumber (s : string) : number :=
  match s with
  | EmptyString => Num 0
  | String c r =>
      if (Ascii.eqb c "-" || Ascii.eqb c "+")%bool then
        match r with
        | EmptyString => NaN
        | _ => match digits r 0 with
               | Some z => Num (if Ascii.eqb c "-" then - z else z)
               | None => NaN
               end
        end
      else match digits s 0 with
           | Some z => Num z
           | None => NaN
           end
  end.

Definition ToNumber (p : prim) : number :=
  match p with
  | PUndefined => NaN
  | PNull => Num 0
  | PBool true => Num 1
  | PBool false => Num 0
  | PNum n => n
  | PStr s => StringToNumber s
  end.

(** The abstract relational comparison [x < y] on primitives; [None] is the
    result [undefined] (an operand is NaN). *)
Definition IsLessThan (px py : prim) : option bool :=
  match px, py with
  | PStr a, PStr b => Some (String.ltb a b)
  | _, _ =>
      match ToNumber px, ToNumber py with
      | Num a, Num b => Some (a <? b)
      | _, _ => None
      end
  end.

Definition lt (a b : value) : bool :=
  match IsLessThan (ToPrimitive a) (ToPrimitive b) with
  | Some true => true
  | _ => false
  end.

(** [a <= b] is "not (b < a)", false when the comparison is undefined. *)
Definition le (a b : value) : bool :=
  match IsLessThan (ToPrimitive b) (ToPrimitive a) with
  | Some false => true
  | _ => false
  end.

Definition gt (a b : value) : bool := lt b a.

(** [a >= b] is "not (a < b)", false when the comparison is undefined. *)
Definition ge (a b : value) : bool :=
  match IsLessThan (ToPrimitive a) (ToPrimitive b) with
  | Some false => true
  | _ => false
  end.

(** ToBoolean. *)
Definition truthy (v : value) : bool :=
  match v with
  | Data DUndefined | Data DNull => false
  | Data (DBool b) => b
  | Data (DNum NaN) => false
  | Data (DNum (Num z)) => negb (z =? 0)
  | Data (DStr s) => negb (String.eqb s "")
  | Data (DArr _) => true
  | FilterObj _ => true
  end.

(** [v === null || typeof v === 'undefined'] *)
Definition nullish (v : value) : bool :=
  match v with
  | Data DUndefined | Data DNull => true
  | _ => false
  end.

End JS.

Import JS.

(* ================================================================= *)
(** ** Effects: exceptions and the trace of external calls *)

Inductive Exn : Type :=
| TypeError
| InvalidStateException (message : string).

Inductive Result (A : Type) : Type :=
| Ok (a : A)
| Throw (e : Exn).

Arguments Ok {A} a.
Arguments Throw {A} e.

(** A DOM element, as far as the chart inspects it: its [id] (empty when it
    has none) and, when it offers [getBoundingClientRect], the measured box. *)
Record Element : Type := {
  id : string;
  boundingClientRect : option (datum * datum)   (* width, height *)
}.

(** A d3 selection; [node] is its first element, if any. *)
Record Selection : Type := {
  node : option Element
}.

(** [this._anchor]: a selector string or a DOM node. *)
Inductive Anchor : Type :=
| AnchorSelector (s : string)
| AnchorNode (e : Element).

(** A field that the code tests against [null] specifically. *)
Inductive Slot (A : Type) : Type :=
| SlotUndefined
| SlotNull
| SlotObj (a : A).

Arguments SlotUndefined {A}.
Arguments SlotNull {A}.
Arguments SlotObj {A} a.

(** The data-source capability.  The chart itself only looks at whether it has
    a [filter] member; a dimension that has one is taken to offer
    [filterExact], [filterRange] and [filterFunction] as well. *)
Record Dimension : Type := {
  has_filter : bool
}.

Inductive Event : Type :=
  (* crossfilter dimension *)
| DimFilter (v : value)
| DimFilterExact (v : value)
| DimFilterRange (v : value)
| DimFilterFunction (p : datum -> Result bool)
  (* this._filterHandler(dimension, filters) is entered *)
| CallFilterHandler (filters : list value)
  (* this._listeners.call(name, this, this, ...args) *)
| Dispatch (name : string) (args : list value)
  (* this.selectAll(selector).style(attribute, v) / .text(content) *)
| Style (selector attribute : string) (v : option string)
| Text (selector : string) (content : value)
  (* element.getBoundingClientRect() *)
| GetBoundingClientRect
  (* a user-supplied width or height function is called *)
| CallCalc
  (* this._svg.transition().duration(d).delay(l).on('end', ...) *)
| ScheduleTransition (duration delay : datum) (event : option string)
  (* the base draw hook and the legend *)
| DoRender
| LegendRender
  (* commit gate and registry fan-out *)
| CallCommitHandler (flag : bool)
| ConsoleLog (v : value)
| RedrawAll (group : option string)
| RenderAll (group : option string).

Definition Trace := list Event.

(** What a handler that talks to the dimension does: the calls it makes, then
    its return value or the exception it raises. *)
Definition Effect (A : Type) : Type := Trace * Result A.

(** Modelled from the spec: [utils.constant] of core/utils, which is not among
    the sources, makes the function that returns a fixed geometry value
    whatever the anchor.  [_widthCalc] / [_heightCalc] is the default
    calculator, such a constant function, or a user function of the anchor
    node. *)
Inductive Calc : Type :=
| DefaultCalc                                   (* this._default{Width,Height}Calc *)
| ConstantCalc (v : datum)                      (* utils.constant(v) *)
| FunctionCalc (f : option Element -> datum).   (* a user function of the anchor node *)

(** The argument of the [width] / [height] setters. *)
Inductive SizeArg : Type :=
| SizeValue (v : datum)
| SizeFunction (f : option Element -> datum).

(** How a commit handler uses its completion callback: the [(error, result)]
    pairs it passes before it returns, and those it passes at some later
    time.  Both lists empty is a handler that never completes. *)
Record CommitRun : Type := {
  during : list (value * value);
  later : list (value * value)
}.

Definition CommitHandler := bool -> CommitRun.

Definition FilterHandler := Dimension -> list value -> Effect (option (list value)).

Record Chart : Type := {
  __dcFlag__ : Z;
  _dimension : option Dimension;
  _group : option unit;
  _anchor : option Anchor;
  _root : Slot Selection;
  _svg : option unit;
  _minWidth : datum;
  _widthCalc : Calc;
  _minHeight : datum;
  _heightCalc : Calc;
  _width : datum;
  _height : datum;
  _controlsUseVisibility : bool;
  _transitionDuration : datum;
  _transitionDelay : datum;
  _filterPrinter : list value -> string;
  _mandatoryAttributesList : option (list string);
  _chartGroup : option string;
  _legend : option unit;
  _commitHandler : option CommitHandler;
  _filters : list value;
  _filterHandler : FilterHandler;
  _hasFilterHandler : list value -> value -> bool;
  _removeFilterHandler : list value -> value -> list value;
  _addFilterHandler : list value -> value -> list value;
  _resetFilterHandler : list value -> list value;
  (* accessors that a concrete chart type adds and names as mandatory
     attributes (the x scale of a coordinate-grid chart, say): [None] when
     the chart has no member of that name, otherwise whether calling it
     without argument yields a truthy value *)
  _members : string -> option bool
}.

(** Field updates ([this._f = x]). *)

Definition set_dimension (x : option Dimension) (c : Chart) : Chart :=
  {| __dcFlag__ := __dcFlag__ c; _dimension := x; _group := _group c;
     _anchor := _anchor c; _root := _root c; _svg := _svg c;
     _minWidth := _minWidth c; _widthCalc := _widthCalc c;
     _minHeight := _minHeight c; _heightCalc := _heightCalc c;
     _width := _width c; _height := _height c;
     _controlsUseVisibility := _controlsUseVisibility c;
     _transitionDuration := _transitionDuration c;
     _transitionDelay := _transitionDelay c;
     _filterPrinter := _filterPrinter c;
     _mandatoryAttributesList := _mandatoryAttributesList c;
     _chartGroup := _chartGroup c; _legend := _legend c;
     _commitHandler := _commitHandler c; _filters := _filters c;
     _filterHandler := _filterHandler c;
     _hasFilterHandler := _hasFilterHandler c;
     _removeFilterHandler := _removeFilterHandler c;
     _addFilterHandler := _addFilterHandler c;
     _resetFilterHandler := _resetFilterHandler c; _members := _members c |}.

Definition set_group (x : option unit) (c : Chart) : Chart :=
  {| __dcFlag__ := __dcFlag__ c; _dimension := _dimension c; _group := x;
     _anchor := _anchor c; _root := _root c; _svg := _svg c;
     _minWidth := _minWidth c; _widthCalc := _widthCalc c;
     _minHeight := _minHeight c; _heightCalc := _heightCalc c;
     _width := _width c; _height := _height c;
     _controlsUseVisibility := _controlsUseVisibility c;
     _transitionDuration := _transitionDuration c;
     _transitionDelay := _transitionDelay c;
     _filterPrinter := _filterPrinter c;
     _mandatoryAttributesList := _mandatoryAttributesList c;
     _chartGroup := _chartGroup c; _legend := _legend c;
     _commitHandler := _commitHandler c; _filters := _filters c;
     _filterHandler := _filterHandler c;
     _hasFilterHandler := _hasFilterHandler c;
     _removeFilterHandler := _removeFilterHandler c;
     _addFilterHandler := _addFilterHandler c;
     _resetFilterHandler := _resetFilterHandler c; _members := _members c |}.

Definition set_anchor (x : option Anchor) (c : Chart) : Chart :=
  {| __dcFlag__ := __dcFlag__ c; _dimension := _dimension c;
     _group := _group c; _anchor := x; _root := _root c; _svg := _svg c;
     _minWidth := _minWidth c; _widthCalc := _widthCalc c;
     _minHeight := _minHeight c; _heightCalc := _heightCalc c;
     _width := _width c; _height := _height c;
     _controlsUseVisibility := _controlsUseVisibility c;
     _transitionDuration := _transitionDuration c;
     _transitionDelay := _transitionDelay c;
     _filterPrinter := _filterPrinter c;
     _mandatoryAttributesList := _mandatoryAttributesList c;
     _chartGroup := _chartGroup c; _legend := _legend c;
     _commitHandler := _commitHandler c; _filters := _filters c;
     _filterHandler := _filterHandler c;
     _hasFilterHandler := _hasFilterHandler c;
     _removeFilterHandler := _removeFilterHandler c;
     _addFilterHandler := _addFilterHandler c;
     _resetFilterHandler := _resetFilterHandler c; _members := _members c |}.

Definition set_root (x : Slot Selection) (c : Chart) : Chart :=
  {| __dcFlag__ := __dcFlag__ c; _dimension := _dimension c;
     _group := _group c; _anchor := _anchor c; _root := x; _svg := _svg c;
     _minWidth := _minWidth c; _widthCalc := _widthCalc c;
     _minHeight := _minHeight c; _heightCalc := _heightCalc c;
     _width := _width c; _height := _height c;
     _controlsUseVisibility := _controlsUseVisibility c;
     _transitionDuration := _transitionDuration c;
     _transitionDelay := _transitionDelay c;
     _filterPrinter := _filterPrinter c;
     _mandatoryAttributesList := _mandatoryAttributesList c;
     _chartGroup := _chartGroup c; _legend := _legend c;
     _commitHandler := _commitHandler c; _filters := _filters c;
     _filterHandler := _filterHandler c;
     _hasFilterHandler := _hasFilterHandler c;
     _removeFilterHandler := _removeFilterHandler c;
     _addFilterHandler := _addFilterHandler c;
     _resetFilterHandler := _resetFilterHandler c; _members := _members c |}.

Definition set_widthCalc (x : Calc) (c : Chart) : Chart :=
  {| __dcFlag__ := __dcFlag__ c; _dimension := _dimension c;
     _group := _group c; _anchor := _anchor c; _root := _root c;
     _svg := _svg c; _minWidth := _minWidth c; _widthCalc := x;
     _minHeight := _minHeight c; _heightCalc := _heightCalc c;
     _width := _width c; _height := _height c;
     _controlsUseVisibility := _controlsUseVisibility c;
     _transitionDuration := _transitionDuration c;
     _transitionDelay := _transitionDelay c;
     _filterPrinter := _filterPrinter c;
     _mandatoryAttributesList := _mandatoryAttributesList c;
     _chartGroup := _chartGroup c; _legend := _legend c;
     _commitHandler := _commitHandler c; _filters := _filters c;
     _filterHandler := _filterHandler c;
     _hasFilterHandler := _hasFilterHandler c;
     _removeFilterHandler := _removeFilterHandler c;
     _addFilterHandler := _addFilterHandler c;
     _resetFilterHandler := _resetFilterHandler c; _members := _members c |}.

Definition set_heightCalc (x : Calc) (c : Chart) : Chart :=
  {| __dcFlag__ := __dcFlag__ c; _dimension := _dimension c;
     _group := _group c; _anchor := _anchor c; _root := _root c;
     _svg := _svg c; _minWidth := _minWidth c; _widthCalc := _widthCalc c;
     _minHeight := _minHeight c; _heightCalc := x; _width := _width c;
     _height := _height c;
     _controlsUseVisibility := _controlsUseVisibility c;
     _transitionDuration := _transitionDuration c;
     _transitionDelay := _transitionDelay c;
     _filterPrinter := _filterPrinter c;
     _mandatoryAttributesList := _mandatoryAttributesList c;
     _chartGroup := _chartGroup c; _legend := _legend c;
     _commitHandler := _commitHandler c; _filters := _filters c;
     _filterHandler := _filterHandler c;
     _hasFilterHandler := _hasFilterHandler c;
     _removeFilterHandler := _removeFilterHandler c;
     _addFilterHandler := _addFilterHandler c;
     _resetFilterHandler := _resetFilterHandler c; _members := _members c |}.

Definition set_width (x : datum) (c : Chart) : Chart :=
  {| __dcFlag__ := __dcFlag__ c; _dimension := _dimension c;
     _group := _group c; _anchor := _anchor c; _root := _root c;
     _svg := _svg c; _minWidth := _minWidth c; _widthCalc := _widthCalc c;
     _minHeight := _minHeight c; _heightCalc := _heightCalc c; _width := x;
     _height := _height c;
     _controlsUseVisibility := _controlsUseVisibility c;
     _transitionDuration := _transitionDuration c;
     _transitionDelay := _transitionDelay c;
     _filterPrinter := _filterPrinter c;
     _mandatoryAttributesList := _mandatoryAttributesList c;
     _chartGroup := _chartGroup c; _legend := _legend c;
     _commitHandler := _commitHandler c; _filters := _filters c;
     _filterHandler := _filterHandler c;
     _hasFilterHandler := _hasFilterHandler c;
     _removeFilterHandler := _removeFilterHandler c;
     _addFilterHandler := _addFilterHandler c;
     _resetFilterHandler := _resetFilterHandler c; _members := _members c |}.

Definition set_height (x : datum) (c : Chart) : Chart :=
  {| __dcFlag__ := __dcFlag__ c; _dimension := _dimension c;
     _group := _group c; _anchor := _anchor c; _root := _root c;
     _svg := _svg c; _minWidth := _minWidth c; _widthCalc := _widthCalc c;
     _minHeight := _minHeight c; _heightCalc := _heightCalc c;
     _width := _width c; _height := x;
     _controlsUseVisibility := _controlsUseVisibility c;
     _transitionDuration := _transitionDuration c;
     _transitionDelay := _transitionDelay c;
     _filterPrinter := _filterPrinter c;
     _mandatoryAttributesList := _mandatoryAttributesList c;
     _chartGroup := _chartGroup c; _legend := _legend c;
     _commitHandler := _commitHandler c; _filters := _filters c;
     _filterHandler := _filterHandler c;
     _hasFilterHandler := _hasFilterHandler c;
     _removeFilterHandler := _removeFilterHandler c;
     _addFilterHandler := _addFilterHandler c;
     _resetFilterHandler := _resetFilterHandler c; _members := _members c |}.

Definition set_commitHandler (x : option CommitHandler) (c : Chart) : Chart :=
  {| __dcFlag__ := __dcFlag__ c; _dimension := _dimension c;
     _group := _group c; _anchor := _anchor c; _root := _root c;
     _svg := _svg c; _minWidth := _minWidth c; _widthCalc := _widthCalc c;
     _minHeight := _minHeight c; _heightCalc := _heightCalc c;
     _width := _width c; _height := _height c;
     _controlsUseVisibility := _controlsUseVisibility c;
     _transitionDuration := _transitionDuration c;
     _transitionDelay := _transitionDelay c;
     _filterPrinter := _filterPrinter c;
     _mandatoryAttributesList := _mandatoryAttributesList c;
     _chartGroup := _chartGroup c; _legend := _legend c; _commitHandler := x;
     _filters := _filters c; _filterHandler := _filterHandler c;
     _hasFilterHandler := _hasFilterHandler c;
     _removeFilterHandler := _removeFilterHandler c;
     _addFilterHandler := _addFilterHandler c;
     _resetFilterHandler := _resetFilterHandler c; _members := _members c |}.

Definition set_filters (x : list value) (c : Chart) : Chart :=
  {| __dcFlag__ := __dcFlag__ c; _dimension := _dimension c;
     _group := _group c; _anchor := _anchor c; _root := _root c;
     _svg := _svg c; _minWidth := _minWidth c; _widthCalc := _widthCalc c;
     _minHeight := _minHeight c; _heightCalc := _heightCalc c;
     _width := _width c; _height := _height c;
     _controlsUseVisibility := _controlsUseVisibility c;
     _transitionDuration := _transitionDuration c;
     _transitionDelay := _transitionDelay c;
     _filterPrinter := _filterPrinter c;
     _mandatoryAttributesList := _mandatoryAttributesList c;
     _chartGroup := _chartGroup c; _legend := _legend c;
     _commitHandler := _commitHandler c; _filters := x;
     _filterHandler := _filterHandler c;
     _hasFilterHandler := _hasFilterHandler c;
     _removeFilterHandler := _removeFilterHandler c;
     _addFilterHandler := _addFilterHandler c;
     _resetFilterHandler := _resetFilterHandler c; _members := _members c |}.

Definition set_filterHandler (x : FilterHandler) (c : Chart) : Chart :=
  {| __dcFlag__ := __dcFlag__ c; _dimension := _dimension c;
     _group := _group c; _anchor := _anchor c; _root := _root c;
     _svg := _svg c; _minWidth := _minWidth c; _widthCalc := _widthCalc c;
     _minHeight := _minHeight c; _heightCalc := _heightCalc c;
     _width := _width c; _height := _height c;
     _controlsUseVisibility := _controlsUseVisibility c;
     _transitionDuration := _transitionDuration c;
     _transitionDelay := _transitionDelay c;
     _filterPrinter := _filterPrinter c;
     _mandatoryAttributesList := _mandatoryAttributesList c;
     _chartGroup := _chartGroup c; _legend := _legend c;
     _commitHandler := _commitHandler c; _filters := _filters c;
     _filterHandler := x; _hasFilterHandler := _hasFilterHandler c;
     _removeFilterHandler := _removeFilterHandler c;
     _addFilterHandler := _addFilterHandler c;
     _resetFilterHandler := _resetFilterHandler c; _members := _members c |}.

(* ================================================================= *)
(** ** The method monad *)

(** A method runs on the current chart, produces the trace of its external
    calls and either returns a value with the updated chart or throws.  The
    trace is kept up to the point of a throw. *)
Definition M (A : Type) : Type := Chart -> Trace * Result (A * Chart).

Definition ret {A} (a : A) : M A := fun c => ([], Ok (a, c)).

Definition bind {A B} (m : M A) (k : A -> M B) : M B :=
  fun c =>
    match m c with
    | (t, Ok (a, c')) => let (t', r) := k a c' in (t ++ t', r)
    | (t, Throw e) => (t, Throw e)
    end.

Declare Scope method_scope.
Delimit Scope method_scope with method.
Notation "x <- m ;; k" := (bind m (fun x => k))
  (at level 61, m at next level, right associativity) : method_scope.
Notation "m ;; k" := (bind m (fun _ => k))
  (at level 61, right associativity) : method_scope.
Local Open Scope method_scope.

Definition this : M Chart := fun c => ([], Ok (c, c)).
Definition assign (f : Chart -> Chart) : M unit := fun c => ([], Ok (tt, f c)).
Definition emit (e : Event) : M unit := fun c => ([e], Ok (tt, c)).
Definition throw {A} (e : Exn) : M A := fun _ => ([], Throw e).

Definition lift {A} (e : Effect A) : M A :=
  fun c => (fst e, match snd e with Ok a => Ok (a, c) | Throw x => Throw x end).

Fixpoint forEach {A} (f : A -> M unit) (l : list A) : M unit :=
  match l with
  | [] => ret tt
  | x :: r => f x ;; forEach f r
  end.

Definition trace {A} (m : M A) (c : Chart) : Trace := fst (m c).
Definition outcome {A} (m : M A) (c : Chart) : Result (A * Chart) := snd (m c).

(** The chart a method leaves behind, if it returns. *)
Definition final {A} (m : M A) (c : Chart) : option Chart :=
  match outcome m c with
  | Ok (_, c') => Some c'
  | Throw _ => None
  end.

(* ================================================================= *)
(** ** Default filter handlers (module level) *)

(** [filter.isFiltered]: reading a property of [undefined] or [null] throws;
    plain data has no such property. *)
Definition get_isFiltered (filter : value) : Result (option (datum -> bool)) :=
  match filter with
  | Data DUndefined | Data DNull => Throw TypeError
  | Data _ => Ok None
  | FilterObj o => Ok (Some (isFiltered o))
  end.

(** [filter.filterType === 'RangedFilter'], evaluated on an object that has
    an [isFiltered] member. *)
Definition is_RangedFilter (filter : value) : bool :=
  match filter with
  | FilterObj o =>
      match filterType o with
      | Some t => String.eqb t "RangedFilter"
      | None => false
      end
  | Data _ => false
  end.

(** The function handed to [dimension.filterFunction]. *)
Fixpoint filterFunction_predicate (filters : list value) (d : datum) : Result bool :=
  match filters with
  | [] => Ok false
  | filter :: rest =>
      match get_isFiltered filter with
      | Throw e => Throw e
      | Ok p =>
          if match p with Some isF => isF d | None => false end then Ok true
          else if le filter d && ge filter d then Ok true
          else filterFunction_predicate rest d
      end
  end.

Definition _defaultFilterHandler : FilterHandler :=
  fun dimension filters =>
    match filters with
    | [] => ([DimFilter null], Ok (Some filters))
    | [f0] =>
        match get_isFiltered f0 with
        | Throw e => ([], Throw e)
        | Ok None =>
            (* single value and not a function-based filter *)
            ([DimFilterExact f0], Ok (Some filters))
        | Ok (Some _) =>
            if is_RangedFilter f0
            then (* single range-based filter *)
                 ([DimFilterRange f0], Ok (Some filters))
            else ([DimFilterFunction (filterFunction_predicate filters)],
                  Ok (Some filters))
        end
    | _ => ([DimFilterFunction (filterFunction_predicate filters)],
            Ok (Some filters))
    end.

Definition _defaultHasFilterHandler (filters : list value) (filter : value) : bool :=
  if nullish filter then (0 <? List.length filters)%nat
  else existsb (fun f => le filter f && ge filter f) filters.

(** Splices out the first element that matches and stops. *)
Fixpoint _defaultRemoveFilterHandler (filters : list value) (filter : value)
  : list value :=
  match filters with
  | [] => []
  | f :: rest =>
      if le f filter && ge f filter then rest
      else f :: _defaultRemoveFilterHandler rest filter
  end.

Definition _defaultAddFilterHandler (filters : list value) (filter : value)
  : list value :=
  filters ++ [filter].

Definition _defaultResetFilterHandler (filters : list value) : list value := [].

(* ================================================================= *)
(** ** class BaseMixin *)

Definition is_some {A} (o : option A) : bool :=
  match o with Some _ => true | None => false end.

(** The constructor.  [uniqueId] is the value drawn from [utils.uniqueId()];
    [DEFAULT_CHART_GROUP] and [printers_filters] are the imported constant and
    default filter printer; [members] describes the accessors a concrete
    chart type contributes (see [_members]). *)
Definition BaseMixin (uniqueId : Z) (DEFAULT_CHART_GROUP : string)
    (printers_filters : list value -> string)
    (members : string -> option bool) : Chart :=
  {| __dcFlag__ := uniqueId;
     _dimension := None;
     _group := None;
     _anchor := None;
     _root := SlotUndefined;
     _svg := None;
     _minWidth := num 200;
     _widthCalc := DefaultCalc;
     _minHeight := num 200;
     _heightCalc := DefaultCalc;
     _width := DUndefined;
     _height := DUndefined;
     _controlsUseVisibility := false;
     _transitionDuration := num 750;
     _transitionDelay := num 0;
     _filterPrinter := printers_filters;
     _mandatoryAttributesList := Some ["dimension"; "group"];
     _chartGroup := Some DEFAULT_CHART_GROUP;
     _legend := None;
     _commitHandler := None;
     _filters := [];
     _filterHandler := _defaultFilterHandler;
     _hasFilterHandler := _defaultHasFilterHandler;
     _removeFilterHandler := _defaultRemoveFilterHandler;
     _addFilterHandler := _defaultAddFilterHandler;
     _resetFilterHandler := _defaultResetFilterHandler;
     _members := members |}.

(* ----------------------------------------------------------------- *)
(** *** Geometry *)

(** Modelled from the spec: [utils.isNumber] of core/utils, which is not among
    the sources; the geometry getters treat the cache as filled exactly when
    it holds a numeric value ([n === +n], so neither [undefined] nor NaN). *)
Definition isNumber (d : datum) : bool :=
  match d with
  | DNum (Num _) => true
  | _ => false
  end.

(** [this._root.node()] *)
Definition root_node : M (option Element) :=
  c <- this ;;
  match _root c with
  | SlotObj r => ret (node r)
  | _ => throw TypeError
  end.

(** [element && element.getBoundingClientRect &&
     element.getBoundingClientRect().width] (or [.height]) *)
Definition measure (side : datum * datum -> datum) (element : option Element)
  : M datum :=
  match element with
  | None => ret DNull
  | Some e =>
      match boundingClientRect e with
      | None => ret DUndefined
      | Some box => emit GetBoundingClientRect ;; ret (side box)
      end
  end.

Definition _defaultWidthCalc (element : option Element) : M datum :=
  width <- measure fst element ;;
  c <- this ;;
  ret (if truthy width && gt width (_minWidth c) then width else _minWidth c).

Definition _defaultHeightCalc (element : option Element) : M datum :=
  height <- measure snd element ;;
  c <- this ;;
  ret (if truthy height && gt height (_minHeight c) then height else _minHeight c).

Definition call_calc (calc : Calc) (default : option Element -> M datum)
    (element : option Element) : M datum :=
  match calc with
  | DefaultCalc => default element
  | ConstantCalc v => ret v
  | FunctionCalc f => emit CallCalc ;; ret (f element)
  end.

(** [x ? (typeof x === 'function' ? x : utils.constant(x)) : default] *)
Definition calc_of (x : SizeArg) : Calc :=
  match x with
  | SizeFunction f => FunctionCalc f
  | SizeValue v => if truthy v then ConstantCalc v else DefaultCalc
  end.

(** [height()] *)
Definition height : M datum :=
  c <- this ;;
  (if negb (isNumber (_height c)) then
     (* only calculate once *)
     element <- root_node ;;
     h <- call_calc (_heightCalc c) _defaultHeightCalc element ;;
     assign (set_height h)
   else ret tt) ;;
  c <- this ;;
  ret (_height c).

(** [height(height)] *)
Definition set_height_arg (height : SizeArg) : M unit :=
  assign (set_heightCalc (calc_of height)) ;;
  assign (set_height DUndefined).

(** [width()] *)
Definition width : M datum :=
  c <- this ;;
  (if negb (isNumber (_width c)) then
     (* only calculate once *)
     element <- root_node ;;
     w <- call_calc (_widthCalc c) _defaultWidthCalc element ;;
     assign (set_width w)
   else ret tt) ;;
  c <- this ;;
  ret (_width c).

(** [width(width)] *)
Definition set_width_arg (width : SizeArg) : M unit :=
  assign (set_widthCalc (calc_of width)) ;;
  assign (set_width DUndefined).

(* ----------------------------------------------------------------- *)
(** *** Anchor name and mandatory attributes *)

(** [a.replace('#', '')]: drops the first [#]. *)
Fixpoint replace_hash (a : string) : string :=
  match a with
  | EmptyString => EmptyString
  | String ch rest =>
      if Ascii.eqb ch "#" then rest else String ch (replace_hash rest)
  end.

Definition chartID (c : Chart) : Z := __dcFlag__ c.

Definition anchorName (c : Chart) : string :=
  let fallback := ("dc-chart" ++ NumberToString (Num (chartID c)))%string in
  match _anchor c with
  | Some (AnchorNode e) =>
      if negb (String.eqb (id e) "") then id e else fallback
  | Some (AnchorSelector a) =>
      if negb (String.eqb a "") then replace_hash a else fallback
  | None => fallback
  end.

(** [this[a]] followed by [this[a]()]: [None] when the chart has no member
    [a], otherwise the truthiness of what the accessor returns.  Of the base
    class only the two accessors of the default mandatory list are looked up
    by name; naming another base method as mandatory is not modelled. *)
Definition member (c : Chart) (a : string) : option bool :=
  if String.eqb a "dimension" then Some (is_some (_dimension c))
  else if String.eqb a "group" then Some (is_some (_group c))
  else _members c a.

Definition mandatory_message (a : string) (c : Chart) : string :=
  ("Mandatory attribute chart." ++ a ++
   " is missing on chart[#" ++ anchorName c ++ "]")%string.

Definition checkForMandatoryAttributes (a : string) : M unit :=
  c <- this ;;
  match member c a with
  | Some true => ret tt
  | _ => throw (InvalidStateException (mandatory_message a c))
  end.

(* ----------------------------------------------------------------- *)
(** *** Render *)

(** The body of the transition-end callback and of the synchronous branch. *)
Definition fire_renderlet (event : string) : M unit :=
  emit (Dispatch "renderlet" []) ;;
  if negb (String.eqb event "") then emit (Dispatch event []) else ret tt.

Definition _activateRenderlets (event : string) : M unit :=
  emit (Dispatch "pretransition" []) ;;
  c <- this ;;
  if gt (_transitionDuration c) (num 0) && is_some (_svg c) then
    emit (ScheduleTransition (_transitionDuration c) (_transitionDelay c)
            (Some event))
  else fire_renderlet event.

(** [render()], with the type-specific draw hook [this._doRender] it
    dispatches to. *)
Definition render_with (_doRender : M unit) : M unit :=
  assign (set_width DUndefined) ;; assign (set_height DUndefined) ;;
  emit (Dispatch "preRender" []) ;;
  c <- this ;;
  match _mandatoryAttributesList c with
  | Some l => forEach checkForMandatoryAttributes l
  | None => ret tt
  end ;;
  _doRender ;;
  c <- this ;;
  (if is_some (_legend c) then emit LegendRender else ret tt) ;;
  _activateRenderlets "postRender".

(** The stub of the base class; concrete chart types override it. *)
Definition _doRender : M unit := emit DoRender.

(** [render()] on a chart that does not override the hook. *)
Definition render : M unit := render_with _doRender.

(* ----------------------------------------------------------------- *)
(** *** Commit gate and group fan-out *)

(** The completion callbacks [(error, result) => ...] created by
    [redrawGroup] and [renderGroup]. *)
Definition redrawGroup_callback (completion : value * value) : M unit :=
  let (error, result) := completion in
  if truthy error then emit (ConsoleLog error)
  else c <- this ;; emit (RedrawAll (_chartGroup c)).

Definition renderGroup_callback (completion : value * value) : M unit :=
  let (error, result) := completion in
  if truthy error then emit (ConsoleLog error)
  else c <- this ;; emit (RenderAll (_chartGroup c)).

Definition redrawGroup : M unit :=
  c <- this ;;
  match _commitHandler c with
  | Some handler =>
      emit (CallCommitHandler false) ;;
      forEach redrawGroup_callback (during (handler false))
  | None => emit (RedrawAll (_chartGroup c))
  end.

Definition renderGroup : M unit :=
  c <- this ;;
  match _commitHandler c with
  | Some handler =>
      emit (CallCommitHandler false) ;;
      forEach renderGroup_callback (during (handler false))
  | None => emit (RenderAll (_chartGroup c))
  end.

(** What happens after [redrawGroup] / [renderGroup] has returned: the commit
    handler it started delivers its remaining completions. *)
Definition redrawGroup_settle : M unit :=
  c <- this ;;
  match _commitHandler c with
  | Some handler => forEach redrawGroup_callback (later (handler false))
  | None => ret tt
  end.

Definition renderGroup_settle : M unit :=
  c <- this ;;
  match _commitHandler c with
  | Some handler => forEach renderGroup_callback (later (handler false))
  | None => ret tt
  end.

(* ----------------------------------------------------------------- *)
(** *** Filters *)

Definition filters (c : Chart) : list value := _filters c.

(** [hasFilter(filter)]; the call without argument is [hasFilter c undefined]. *)
Definition hasFilter (c : Chart) (filter : value) : bool :=
  _hasFilterHandler c (_filters c) filter.

(** [filter()] without argument. *)
Definition filter_get (c : Chart) : value :=
  match _filters c with
  | f :: _ => f
  | [] => null
  end.

Definition _invokeFilteredListener (f : value) : M unit :=
  match f with
  | Data DUndefined => ret tt
  | _ => emit (Dispatch "filtered" [f])
  end.

Definition root_truthy (c : Chart) : bool :=
  match _root c with SlotObj _ => true | _ => false end.

Definition turnOnControls : M unit :=
  c <- this ;;
  if root_truthy c then
    let attribute := if _controlsUseVisibility c then "visibility" else "display" in
    emit (Style ".reset" attribute None) ;;
    emit (Text ".filter" (DStr (_filterPrinter c (filters c)))) ;;
    emit (Style ".filter" attribute None)
  else ret tt.

Definition turnOffControls : M unit :=
  c <- this ;;
  if root_truthy c then
    let attribute := if _controlsUseVisibility c then "visibility" else "display" in
    let value := if _controlsUseVisibility c then "hidden" else "none" in
    emit (Style ".reset" attribute (Some value)) ;;
    emit (Style ".filter" attribute (Some value)) ;;
    emit (Text ".filter" (filter_get c))
  else ret tt.

Definition applyFilters (filters : list value) : M (list value) :=
  c <- this ;;
  match _dimension c with
  | Some dimension =>
      if has_filter dimension then
        emit (CallFilterHandler filters) ;;
        fs <- lift (_filterHandler c dimension filters) ;;
        match fs with
        | Some fs => ret fs
        | None => ret filters
        end
      else ret filters
  | None => ret filters
  end.

(** One toggle: has -> remove, else -> add. *)
Definition toggle (c : Chart) (filters : list value) (f : value) : list value :=
  if _hasFilterHandler c filters f
  then _removeFilterHandler c filters f
  else _addFilterHandler c filters f.

(** [filter instanceof Array && filter[0] instanceof Array && !filter.isFiltered]:
    the inner array when the test succeeds. *)
Definition toggle_group (filter : value) : option (list datum) :=
  match filter with
  | Data (DArr (DArr inner :: _)) => Some inner
  | _ => None
  end.

Definition root_is_null (c : Chart) : bool :=
  match _root c with SlotNull => true | _ => false end.

(** The list [filter(filter)] computes from the current one before it is
    applied: each inner value toggled, a reset, or one toggle. *)
Definition toggled (c : Chart) (filter : value) : list value :=
  let filters := _filters c in
  match toggle_group filter with
  | Some inner =>
      (* toggle each filter *)
      fold_left (fun filters f => toggle c filters (Data f)) inner filters
  | None =>
      if match filter with Data DNull => true | _ => false end
      then _resetFilterHandler c filters
      else toggle c filters filter
  end.

(** [filter(filter)] with one argument. *)
Definition filter (filter : value) : M unit :=
  c <- this ;;
  fs <- applyFilters (toggled c filter) ;;
  assign (set_filters fs) ;;
  _invokeFilteredListener filter ;;
  c <- this ;;
  if negb (root_is_null c) && hasFilter c undefined
  then turnOnControls
  else turnOffControls.

Definition replaceFilter (v : value) : M unit :=
  c <- this ;;
  assign (set_filters (_resetFilterHandler c (_filters c))) ;;
  filter v.

Definition filterAll : M unit := filter null.

(* ================================================================= *)
(** ** Vocabulary for the properties *)

(** *** Reading traces *)

Definition fan_out (e : Event) : bool :=
  match e with
  | RedrawAll _ | RenderAll _ => true
  | _ => false
  end.

(** Number of group-wide fan-out passes in a trace. *)
Definition fan_outs (t : Trace) : nat := List.length (List.filter fan_out t).

(** The flags the commit handler was called with. *)
Definition commit_flags (t : Trace) : list bool :=
  flat_map (fun e => match e with CallCommitHandler b => [b] | _ => [] end) t.

(** Number of times the filter handler was applied to the dimension. *)
Definition applications (t : Trace) : nat :=
  List.length
    (List.filter (fun e => match e with CallFilterHandler _ => true | _ => false end) t).

Definition dimension_call (e : Event) : bool :=
  match e with
  | DimFilter _ | DimFilterExact _ | DimFilterRange _ | DimFilterFunction _ => true
  | _ => false
  end.

(** Number of calls the dimension received. *)
Definition dimension_calls (t : Trace) : nat :=
  List.length (List.filter dimension_call t).

(** What [filter] shows on the chart's controls once the list is stored. *)
Definition controls (c : Chart) : Trace :=
  trace (if negb (root_is_null c) && hasFilter c undefined
         then turnOnControls else turnOffControls) c.

(** The [filtered] event for [filter(v)], if it is dispatched. *)
Definition filtered_event (v : value) : Trace :=
  match v with
  | Data DUndefined => []
  | _ => [Dispatch "filtered" [v]]
  end.

(** *** Commit handlers *)

(** All completions a commit handler delivers for one call. *)
Definition completions (r : CommitRun) : list (value * value) :=
  during r ++ later r.

(** Number of completions that report no error. *)
Definition successes (l : list (value * value)) : nat :=
  List.length (List.filter (fun p => negb (truthy (fst p))) l).

(** *** Filters and their handlers *)

Definition default_handlers (c : Chart) : Prop :=
  _filterHandler c = _defaultFilterHandler /\
  _hasFilterHandler c = _defaultHasFilterHandler /\
  _removeFilterHandler c = _defaultRemoveFilterHandler /\
  _addFilterHandler c = _defaultAddFilterHandler /\
  _resetFilterHandler c = _defaultResetFilterHandler.

(** No element is [null] or [undefined]. *)
Definition all_defined (l : list value) : Prop :=
  Forall (fun e => nullish e = false) l.

(** An argument of [filter] in one of its documented forms: [null], an array
    holding an array of values, or a single value; no value among them is
    [undefined], and none inside the array is [null]. *)
Definition documented_argument (v : value) : Prop :=
  match toggle_group v with
  | Some inner => all_defined (map Data inner)
  | None => v <> undefined
  end.

(** An element carrying an [isFiltered] method. *)
Definition predicate_tagged (e : value) : bool :=
  match e with
  | FilterObj _ => true
  | Data _ => false
  end.

(** Element [e] lets datum [d] through: its own [isFiltered] accepts [d], or
    [e <= d && e >= d]. *)
Definition accepts (e : value) (d : datum) : bool :=
  match e with
  | FilterObj o => isFiltered o d
  | Data _ => false
  end || (le e d && ge e d).

(** A containment check that asks a predicate-tagged element its own
    [isFiltered] and compares any other element by equal-or-within. *)
Definition contains_by_predicate (e : value) (f : datum) : bool :=
  match e with
  | FilterObj o => isFiltered o f
  | Data _ => le f e && ge f e
  end.

(** The same filter object with another [isFiltered] method. *)
Definition with_isFiltered (q : datum -> bool) (e : value) : value :=
  match e with
  | FilterObj o =>
      FilterObj {| elements := elements o; isFiltered := q;
                   filterType := filterType o |}
  | Data d => Data d
  end.

(** *** Mandatory attributes and rendering *)

(** [!this[a] || !this[a]()] *)
Definition missing (c : Chart) (a : string) : bool :=
  match member c a with
  | Some true => false
  | _ => true
  end.

(** Every mandatory attribute is present. *)
Definition all_present (c : Chart) : Prop :=
  match _mandatoryAttributesList c with
  | Some l => Forall (fun a => missing c a = false) l
  | None => True
  end.

(** Both geometry caches empty. *)
Definition cleared (c : Chart) : Chart :=
  set_height DUndefined (set_width DUndefined c).

(** What [render] does once the draw hook has returned. *)
Definition finish_render : M unit :=
  c <- this ;;
  (if is_some (_legend c) then emit LegendRender else ret tt) ;;
  _activateRenderlets "postRender".

(** [n] successive calls of a method, with their results in order. *)
Fixpoint times {A} (n : nat) (m : M A) : M (list A) :=
  match n with
  | O => ret []
  | S k => x <- m ;; xs <- times k m ;; ret (x :: xs)
  end.

(** *** Charts and values for the examples *)

(** A chart as the constructor leaves it. *)
Definition fresh_chart : Chart :=
  BaseMixin 1 "__default_chart_group__" (fun _ => "") (fun _ => None).

Definition a_dimension : Dimension := {| has_filter := true |}.

(** A chart with a data source and one filter. *)
Definition bound_chart : Chart :=
  set_dimension (Some a_dimension) (set_filters [Data (num 3)] fresh_chart).

Definition two_filters_chart : Chart :=
  set_filters [Data (num 5); Data (num 7)] fresh_chart.

(** Modelled from the spec: [dc.filters.RangedFilter(low, high)] of
    core/filters.js, which is not among the sources: the filter of kind
    "ranged", an array of its two bounds tagged with [filterType] and with an
    [isFiltered] that accepts the values from [low] up to, not including,
    [high]. *)
Definition RangedFilter (low high : datum) : value :=
  FilterObj {| elements := [low; high];
               isFiltered := fun v => ge v low && lt v high;
               filterType := Some "RangedFilter" |}.

Definition ranged_chart : Chart :=
  set_filters [RangedFilter (num 10) (num 20)] fresh_chart.

(** A custom filter handler in the documented style (it returns the list to
    record): when nothing is selected it pins the dimension to the key 0 and
    records that as the current filter. *)
Definition pin_zero_handler : FilterHandler :=
  fun dimension filters =>
    match filters with
    | [] => ([DimFilterExact (num 0)], Ok (Some [Data (num 0)]))
    | _ => _defaultFilterHandler dimension filters
    end.

Definition pinned_chart : Chart :=
  set_filterHandler pin_zero_handler bound_chart.

(** A commit handler that reports a failure before it returns, and one that
    reports success at some later time. *)
Definition failing_commit : CommitHandler :=
  fun _ => {| during := [(Data (DStr "commit failed"), undefined)]; later := [] |}.

Definition succeeding_commit : CommitHandler :=
  fun _ => {| during := []; later := [(null, Data (DStr "done"))] |}.

(** A chart anchored on a 500 x 320 div. *)
Definition a_div : Element :=
  {| id := "chart"; boundingClientRect := Some (num 500, num 320) |}.

Definition anchored_chart : Chart :=
  set_root (SlotObj {| node := Some a_div |})
    (set_anchor (Some (AnchorNode a_div)) fresh_chart).

From Stdlib Require Import Permutation Sorted.

(* ================================================================= *)
(** ** More of the class *)

(** [redrawGroup] with the fan-out left open.  [redrawAll] of
    core/chart-registry is not among the sources: it calls [redraw()] on
    every chart registered in the group, which for an anchored chart
    includes this chart, so it can change the chart and can throw.  Here it
    is any method; [redrawGroup] above is the instance that only records the
    call. *)
Definition redrawGroup_with (redrawAll : option string -> M unit) : M unit :=
  c <- this ;;
  match _commitHandler c with
  | Some handler =>
      emit (CallCommitHandler false) ;;
      forEach (fun completion : value * value =>
                 let (error, result) := completion in
                 if truthy error then emit (ConsoleLog error)
                 else c' <- this ;; redrawAll (_chartGroup c'))
              (during (handler false))
  | None => redrawAll (_chartGroup c)
  end.

(** Modelled from the spec: [events.trigger] of core/events, which is not
    among the sources, runs the closure it is given (at once when, as here,
    no delay is passed).  [onClick(datum)] then is the toggle of the datum's
    key followed by the group redraw; [keyAccessor] stands for what
    [this.keyAccessor()] returns. *)
Definition onClick (redrawAll : option string -> M unit)
    (keyAccessor : datum -> value) (d : datum) : M unit :=
  let key := keyAccessor d in
  filter key ;; redrawGroup_with redrawAll.

(** [x - y] on the modelled numbers. *)
Definition number_sub (x y : number) : number :=
  match x, y with
  | Num a, Num b => Num (a - b)
  | _, _ => NaN
  end.

Section OrderedGroups.

(** The records of a group and [this._ordering]. *)
Variable A : Type.
Variable _ordering : A -> value.

Definition ordering_key (a : A) : number := ToNumber (ToPrimitive (_ordering a)).

(** [(a, b) => this._ordering(a) - this._ordering(b)] *)
Definition compareFn (a b : A) : number :=
  number_sub (ordering_key a) (ordering_key b).

(** [Array.prototype.sort(compareFn)]: [a] is put after [b] when
    [compareFn(a, b) > 0]; a NaN result counts as 0.  The sort is stable,
    which for a comparator that is a consistent ordering fixes the result:
    the one this insertion sort computes.  (For an inconsistent comparator,
    as when only some keys are NaN, the language leaves the order open and
    this is one admissible outcome.) *)
Definition sorts_after (a b : A) : bool :=
  match compareFn a b with
  | Num z => 0 <? z
  | NaN => false
  end.

Fixpoint sort_insert (x : A) (l : list A) : list A :=
  match l with
  | [] => [x]
  | y :: r => if sorts_after x y then y :: sort_insert x r else x :: y :: r
  end.

Fixpoint sort (l : list A) : list A :=
  match l with
  | [] => []
  | x :: r => sort_insert x (sort r)
  end.

(** [Array.from(data).sort(...)]: the copy is sorted, [data] itself is not
    touched. *)
Definition _computeOrderedGroups (data : list A) : list A := sort data.

End OrderedGroups.

Arguments ordering_key {A} _ordering a.
Arguments _computeOrderedGroups {A} _ordering data.

(* ================================================================= *)
(** ** Further vocabulary *)

(** [e <= f && e >= f] *)
Definition matches (e f : value) : bool := le e f && ge e f.

(** The fan-out calls of a trace, in order. *)
Definition fan_out_calls (t : Trace) : Trace := List.filter fan_out t.

(** What was written to the console, in order. *)
Definition logged (t : Trace) : list value :=
  flat_map (fun e => match e with ConsoleLog v => [v] | _ => [] end) t.

(** The errors among the completions, in order of delivery. *)
Definition errors (l : list (value * value)) : list value :=
  map fst (List.filter (fun p => truthy (fst p)) l).

(** A commit handler that has not completed when the call returns. *)
Definition pending_commit : CommitHandler :=
  fun _ => {| during := []; later := [] |}.

(** A fan-out under which this chart's redraw fails. *)
Definition failing_redrawAll (group : option string) : M unit :=
  emit (RedrawAll group) ;; throw (InvalidStateException "redraw failed").

(** Group records (key and value) for the examples, ordered by their value
    or, as with the constructor's [pluck('key')], by their key. *)
Definition by_value (r : string * datum) : value := Data (snd r).

Definition by_key (r : string * datum) : value := Data (DStr (fst r)).

Definition number_of (r : string * datum) : Z :=
  match snd r with
  | DNum (Num z) => z
  | _ => 0
  end.

Definition some_groups : list (string * datum) :=
  [("d", num 3); ("b", num 1); ("c", num 3); ("a", num 2)]%string.

(** The style attribute the controls are switched with, and its "off" value. *)
Definition controls_attribute (c : Chart) : string :=
  if _controlsUseVisibility c then "visibility" else "display".

Definition controls_off_value (c : Chart) : string :=
  if _controlsUseVisibility c then "hidden" else "none".

(** A chart with a data source and no filter yet. *)
Definition bound_empty_chart : Chart :=
  set_dimension (Some a_dimension) fresh_chart.

(** A chart that passes the mandatory-attribute check. *)
Definition configured_chart : Chart :=
  set_group (Some tt) (set_dimension (Some a_dimension) fresh_chart).

(** [this._svg = x] *)
Definition set_svg (x : option unit) (c : Chart) : Chart :=
  {| __dcFlag__ := __dcFlag__ c; _dimension := _dimension c;
     _group := _group c; _anchor := _anchor c; _root := _root c;
     _svg := x; _minWidth := _minWidth c; _widthCalc := _widthCalc c;
     _minHeight := _minHeight c; _heightCalc := _heightCalc c;
     _width := _width c; _height := _height c;
     _controlsUseVisibility := _controlsUseVisibility c;
     _transitionDuration := _transitionDuration c;
     _transitionDelay := _transitionDelay c;
     _filterPrinter := _filterPrinter c;
     _mandatoryAttributesList := _mandatoryAttributesList c;
     _chartGroup := _chartGroup c; _legend := _legend c;
     _commitHandler := _commitHandler c; _filters := _filters c;
     _filterHandler := _filterHandler c;
     _hasFilterHandler := _hasFilterHandler c;
     _removeFilterHandler := _removeFilterHandler c;
     _addFilterHandler := _addFilterHandler c;
     _resetFilterHandler := _resetFilterHandler c; _members := _members c |}.

(** The events [_activateRenderlets(event)] produces: a scheduled transition
    when the duration is positive and an svg exists, else the renderlet and
    the closing event at once. *)
Definition renderlet_events (c : Chart) (event : string) : Trace :=
  Dispatch "pretransition" [] ::
  (if gt (_transitionDuration c) (num 0) && is_some (_svg c)
   then [ScheduleTransition (_transitionDuration c) (_transitionDelay c)
           (Some event)]
   else [Dispatch "renderlet" []; Dispatch event []]).

(** What the default calculator makes of a measured size [w] and the
    minimum [m]. *)
Definition at_least (m w : Z) : Z :=
  if negb (w =? 0) && (m <? w) then w else m.

(** A commit handler that completes twice without error. *)
Definition twice_commit : CommitHandler :=
  fun _ => {| during := [(null, undefined)]; later := [(undefined, undefined)] |}.

(** Whether a selector text contains a [#]. *)
Fixpoint contains_hash (s : string) : bool :=
  match s with
  | EmptyString => false
  | String ch rest => Ascii.eqb ch "#" || contains_hash rest
  end.

(** A chart anchored by a selector text. *)
Definition selector_chart (s : string) : Chart :=
  set_anchor (Some (AnchorSelector s)) fresh_chart.

(* ================================================================= *)
(** ** Properties *)

(** *** Running methods *)

Lemma run_bind {A B} (m : M A) (k : A -> M B) (c : Chart) :
  (x <- m ;; k x) c =
    match m c with
    | (t, Ok (a, c')) => (t ++ trace (k a) c', outcome (k a) c')
    | (t, Throw e) => (t, Throw e)
    end.
Proof.
  unfold bind, trace, outcome.
  destruct (m c) as [t [[a c'] | e]]; [| reflexivity].
  now destruct (k a c').
Qed.

Lemma run_parts {A} (m : M A) (c : Chart) : m c = (trace m c, outcome m c).
Proof. unfold trace, outcome. now destruct (m c). Qed.

(** *** Commit gate *)

Lemma fan_outs_app (t1 t2 : Trace) :
  fan_outs (t1 ++ t2) = (fan_outs t1 + fan_outs t2)%nat.
Proof. unfold fan_outs. now rewrite filter_app, length_app. Qed.

Lemma commit_flags_app (t1 t2 : Trace) :
  commit_flags (t1 ++ t2) = commit_flags t1 ++ commit_flags t2.
Proof. apply flat_map_app. Qed.

Section Callbacks.

Variable callback : value * value -> M unit.
Variable pass : Chart -> Event.

Hypothesis callback_run : forall error result c,
  callback (error, result) c =
    ((if truthy error then [ConsoleLog error] else [pass c]), Ok (tt, c)).
Hypothesis pass_fan_out : forall c, fan_out (pass c) = true.
Hypothesis pass_no_commit : forall c, commit_flags [pass c] = [].

(** The completion callbacks never throw, leave the chart unchanged, and fan
    out once per completion that carries no error. *)
Lemma callbacks_run (l : list (value * value)) (c : Chart) :
  exists t, forEach callback l c = (t, Ok (tt, c)) /\
            fan_outs t = successes l /\ commit_flags t = [].
Proof.
  induction l as [| [error result] l (t & IH & Hn & Hf)]; simpl.
  - now exists [].
  - rewrite run_bind, callback_run. rewrite (run_parts (forEach callback l) c) in IH.
    injection IH as Ht Ho. rewrite Ht, Ho.
    eexists; split; [reflexivity |].
    rewrite fan_outs_app, commit_flags_app, Hn, Hf, app_nil_r.
    unfold successes; simpl.
    destruct (truthy error); simpl; [auto |].
    split; [| apply pass_no_commit].
    unfold fan_outs; simpl. now rewrite pass_fan_out.
Qed.

End Callbacks.

Lemma redrawGroup_callbacks (l : list (value * value)) (c : Chart) :
  exists t, forEach redrawGroup_callback l c = (t, Ok (tt, c)) /\
            fan_outs t = successes l /\ commit_flags t = [].
Proof.
  apply callbacks_run with (pass := fun c => RedrawAll (_chartGroup c)); auto.
  intros error result c'. unfold redrawGroup_callback.
  now destruct (truthy error).
Qed.

Lemma renderGroup_callbacks (l : list (value * value)) (c : Chart) :
  exists t, forEach renderGroup_callback l c = (t, Ok (tt, c)) /\
            fan_outs t = successes l /\ commit_flags t = [].
Proof.
  apply callbacks_run with (pass := fun c => RenderAll (_chartGroup c)); auto.
  intros error result c'. unfold renderGroup_callback.
  now destruct (truthy error).
Qed.

Lemma redrawGroup_run (c : Chart) (handler : CommitHandler) :
  _commitHandler c = Some handler ->
  exists t, redrawGroup c = (CallCommitHandler false :: t, Ok (tt, c)) /\
            fan_outs t = successes (during (handler false)) /\
            commit_flags t = [].
Proof.
  intro H. unfold redrawGroup. rewrite run_bind; simpl. rewrite H.
  destruct (redrawGroup_callbacks (during (handler false)) c) as (t & E & Hn & Hf).
  exists t. unfold trace, outcome. rewrite run_bind; simpl.
  unfold trace, outcome. now rewrite E.
Qed.

Lemma renderGroup_run (c : Chart) (handler : CommitHandler) :
  _commitHandler c = Some handler ->
  exists t, renderGroup c = (CallCommitHandler false :: t, Ok (tt, c)) /\
            fan_outs t = successes (during (handler false)) /\
            commit_flags t = [].
Proof.
  intro H. unfold renderGroup. rewrite run_bind; simpl. rewrite H.
  destruct (renderGroup_callbacks (during (handler false)) c) as (t & E & Hn & Hf).
  exists t. unfold trace, outcome. rewrite run_bind; simpl.
  unfold trace, outcome. now rewrite E.
Qed.

Lemma successes_app (l1 l2 : list (value * value)) :
  successes (l1 ++ l2) = (successes l1 + successes l2)%nat.
Proof. unfold successes. now rewrite filter_app, length_app. Qed.

(** With a commit handler bound, a group redraw or render fans out once for
    each completion the handler delivers without error, and not otherwise. *)
Lemma commit_gate_counts (c : Chart) (handler : CommitHandler) :
  _commitHandler c = Some handler ->
  fan_outs (trace (redrawGroup ;; redrawGroup_settle) c)
    = successes (completions (handler false)) /\
  fan_outs (trace (renderGroup ;; renderGroup_settle) c)
    = successes (completions (handler false)).
Proof.
  intro H. unfold completions. rewrite successes_app. split.
  - destruct (redrawGroup_run c handler H) as (t & E & Hn & _).
    unfold trace at 1. rewrite run_bind, E. simpl.
    unfold redrawGroup_settle, trace. rewrite run_bind; simpl. rewrite H.
    destruct (redrawGroup_callbacks (later (handler false)) c) as (t' & E' & Hn' & _).
    unfold trace. rewrite E'. simpl.
    change (CallCommitHandler false :: t ++ t') with ([CallCommitHandler false] ++ t ++ t').
    rewrite !fan_outs_app, Hn, Hn'. reflexivity.
  - destruct (renderGroup_run c handler H) as (t & E & Hn & _).
    unfold trace at 1. rewrite run_bind, E. simpl.
    unfold renderGroup_settle, trace. rewrite run_bind; simpl. rewrite H.
    destruct (renderGroup_callbacks (later (handler false)) c) as (t' & E' & Hn' & _).
    unfold trace. rewrite E'. simpl.
    change (CallCommitHandler false :: t ++ t') with ([CallCommitHandler false] ++ t ++ t').
    rewrite !fan_outs_app, Hn, Hn'. reflexivity.
Qed.

(** C8.  With a commit handler bound, [redrawGroup()] / [renderGroup()]
    perform no group-wide fan-out when the handler completes with an error
    and exactly one when it completes without error; with no commit handler
    the fan-out is the one thing the call itself does, before it returns. *)
Theorem commit_gate (c : Chart) :
  (forall handler, _commitHandler c = Some handler ->
     (forall flag, exists error result,
        completions (handler flag) = [(error, result)] /\ truthy error = true) ->
     fan_outs (trace (redrawGroup ;; redrawGroup_settle) c) = 0%nat /\
     fan_outs (trace (renderGroup ;; renderGroup_settle) c) = 0%nat) /\
  (forall handler, _commitHandler c = Some handler ->
     (forall flag, exists error result,
        completions (handler flag) = [(error, result)] /\ truthy error = false) ->
     fan_outs (trace (redrawGroup ;; redrawGroup_settle) c) = 1%nat /\
     fan_outs (trace (renderGroup ;; renderGroup_settle) c) = 1%nat) /\
  (_commitHandler c = None ->
     redrawGroup c = ([RedrawAll (_chartGroup c)], Ok (tt, c)) /\
     renderGroup c = ([RenderAll (_chartGroup c)], Ok (tt, c)) /\
     trace redrawGroup_settle c = [] /\ trace renderGroup_settle c = []).
Proof.
  repeat split.
  1-4: destruct (H0 false) as (error & result & E & He);
       destruct (commit_gate_counts c handler H) as [Hd Hr];
       rewrite ?Hd, ?Hr, E; unfold successes; simpl; now rewrite He.
  all: unfold redrawGroup, renderGroup, redrawGroup_settle, renderGroup_settle,
         trace, bind, this; simpl; now rewrite H.
Qed.

Lemma commit_gate_witness :
  fan_outs (trace (redrawGroup ;; redrawGroup_settle)
              (set_commitHandler (Some failing_commit) fresh_chart)) = 0%nat /\
  fan_outs (trace (renderGroup ;; renderGroup_settle)
              (set_commitHandler (Some succeeding_commit) fresh_chart)) = 1%nat /\
  redrawGroup fresh_chart
    = ([RedrawAll (Some "__default_chart_group__")], Ok (tt, fresh_chart)).
Proof.
  split; [| split].
  - apply (commit_gate (set_commitHandler (Some failing_commit) fresh_chart))
      with (handler := failing_commit); [reflexivity |].
    intro flag. now exists (Data (DStr "commit failed")), undefined.
  - apply (commit_gate (set_commitHandler (Some succeeding_commit) fresh_chart))
      with (handler := succeeding_commit); [reflexivity |].
    intro flag. now exists null, (Data (DStr "done")).
  - now apply (commit_gate fresh_chart).
Defined.

(** C1.  What the code does with the first argument of the commit handler:
    [redrawGroup()] calls it once with [false], and [renderGroup()] calls it
    once with [false] as well, never with [true]. *)
Theorem group_commit_flag (c : Chart) (handler : CommitHandler) :
  _commitHandler c = Some handler ->
  commit_flags (trace redrawGroup c) = [false] /\
  commit_flags (trace renderGroup c) = [false].
Proof.
  intro H. split.
  - destruct (redrawGroup_run c handler H) as (t & E & _ & Hf).
    unfold trace. rewrite E. simpl. now rewrite Hf.
  - destruct (renderGroup_run c handler H) as (t & E & _ & Hf).
    unfold trace. rewrite E. simpl. now rewrite Hf.
Qed.

Lemma group_commit_flag_witness :
  commit_flags (trace renderGroup
                  (set_commitHandler (Some succeeding_commit) fresh_chart))
  = [false].
Proof.
  now apply (group_commit_flag
               (set_commitHandler (Some succeeding_commit) fresh_chart)
               succeeding_commit).
Defined.

(** *** Mandatory attributes *)

Lemma checkForMandatoryAttributes_run (a : string) (c : Chart) :
  checkForMandatoryAttributes a c =
    ([], if missing c a
         then Throw (InvalidStateException (mandatory_message a c))
         else Ok (tt, c)).
Proof.
  unfold checkForMandatoryAttributes, missing, bind, this; simpl.
  now destruct (member c a) as [[|] |].
Qed.

Lemma check_all (c : Chart) (l : list string) :
  (Forall (fun b => missing c b = false) l /\
   forEach checkForMandatoryAttributes l c = ([], Ok (tt, c))) \/
  (exists before a after,
     l = before ++ a :: after /\
     Forall (fun b => missing c b = false) before /\
     missing c a = true /\
     forEach checkForMandatoryAttributes l c
       = ([], Throw (InvalidStateException (mandatory_message a c)))).
Proof.
  induction l as [| a l IH]; simpl.
  - left. split; [constructor | reflexivity].
  - rewrite run_bind, checkForMandatoryAttributes_run.
    destruct (missing c a) eqn:Ha.
    + right. now exists [], a, l.
    + simpl. unfold trace, outcome.
      destruct IH as [[Hall E] | (before & b & after & El & Hall & Hb & E)];
        rewrite E.
      * left. split; [now constructor | reflexivity].
      * right. exists (a :: before), b, after.
        repeat split; auto. now rewrite El.
Qed.

(** C5.  When some name in the mandatory-attribute list has no truthy
    accessor value, [render()] throws an InvalidStateException whose message
    names such an attribute (the first one in list order) and the chart's
    anchor name.  Up to the throw it has only dispatched [preRender]:
    whatever the draw hook is, it has not run. *)
Theorem render_mandatory_attribute_missing (c : Chart) (l : list string) :
  _mandatoryAttributesList c = Some l ->
  (exists a, In a l /\ missing c a = true) ->
  exists before a after,
    l = before ++ a :: after /\
    Forall (fun b => missing c b = false) before /\
    missing c a = true /\
    (forall hook,
       render_with hook c =
         ([Dispatch "preRender" []],
          Throw (InvalidStateException
                   ("Mandatory attribute chart." ++ a ++
                    " is missing on chart[#" ++ anchorName c ++ "]")%string))) /\
    ~ In DoRender (trace render c).
Proof.
  intros Hl (a0 & Hin & Hmiss).
  set (c1 := set_height DUndefined (set_width DUndefined c)).
  assert (R : forall hook, render_with hook c =
              match forEach checkForMandatoryAttributes l c1 with
              | (t, Throw e) => (Dispatch "preRender" [] :: t, Throw e)
              | (t, Ok _) => render_with hook c
              end).
  { intro hook. unfold render_with, bind, assign, emit, this; simpl.
    rewrite Hl. fold c1.
    now destruct (forEach checkForMandatoryAttributes l c1) as [t [[u c2] | e]]. }
  destruct (check_all c1 l) as [[Hall _] | (before & a & after & El & Hall & Ha & E)].
  - exfalso. rewrite Forall_forall in Hall. specialize (Hall a0 Hin).
    change (missing c1 a0) with (missing c a0) in Hall. congruence.
  - exists before, a, after. rewrite E in R.
    change (mandatory_message a c1) with (mandatory_message a c) in R.
    repeat split; auto.
    unfold render, trace. rewrite R. simpl.
    intros [H | []]. discriminate H.
Qed.

Lemma render_mandatory_attribute_missing_witness :
  missing fresh_chart "dimension" = true /\
  exists before a after,
    ["dimension"; "group"] = before ++ a :: after /\
    Forall (fun b => missing fresh_chart b = false) before /\
    missing fresh_chart a = true /\
    (forall hook,
       render_with hook fresh_chart =
         ([Dispatch "preRender" []],
          Throw (InvalidStateException
                   ("Mandatory attribute chart." ++ a ++
                    " is missing on chart[#" ++ anchorName fresh_chart ++ "]")%string))) /\
    ~ In DoRender (trace render fresh_chart).
Proof.
  split; [reflexivity |].
  apply (render_mandatory_attribute_missing fresh_chart ["dimension"; "group"]).
  - reflexivity.
  - exists "dimension". split; [simpl; auto | reflexivity].
Defined.

(** *** The has-filter handler *)

Lemma ToPrimitive_with_isFiltered (q : datum -> bool) (e : value) :
  ToPrimitive (with_isFiltered q e) = ToPrimitive e.
Proof. now destruct e. Qed.

(** C2, as the code has it.  With the default has-filter handler,
    [hasFilter(f)] for an [f] other than null and undefined is true exactly
    when some element [e] of the filter list satisfies [f <= e && f >= e];
    this comparison is applied to every element alike and the outcome does
    not depend on any element's [isFiltered] method.  For a missing (or null)
    argument it is true exactly when the list is non-empty. *)
Theorem hasFilter_default (c : Chart) (f : value) :
  _hasFilterHandler c = _defaultHasFilterHandler ->
  (nullish f = false ->
     (hasFilter c f = true <->
      exists e, In e (filters c) /\ le f e = true /\ ge f e = true) /\
     (forall q, hasFilter (set_filters (map (with_isFiltered q) (filters c)) c) f
                = hasFilter c f)) /\
  (nullish f = true -> (hasFilter c f = true <-> filters c <> [])).
Proof.
  intro H. unfold hasFilter, filters. simpl. rewrite H.
  unfold _defaultHasFilterHandler. split; intro Hn; rewrite Hn.
  - split.
    + rewrite existsb_exists. split; intros (e & Hin & He); exists e.
      * now apply andb_true_iff in He.
      * split; [exact Hin | now apply andb_true_iff].
    + intro q. induction (_filters c) as [| e l IH]; simpl; [reflexivity |].
      rewrite IH. unfold le, ge. now rewrite ToPrimitive_with_isFiltered.
  - destruct (_filters c); simpl; split; intro; try easy; congruence.
Qed.

Lemma hasFilter_default_witness :
  nullish (num 15) = false /\
  (hasFilter ranged_chart (num 15) = true <->
   exists e, In e (filters ranged_chart) /\
             le (num 15) e = true /\ ge (num 15) e = true).
Proof.
  split; [reflexivity |].
  now apply (hasFilter_default ranged_chart (num 15)).
Defined.

(** C2, counterexample.  On a chart whose only filter is the range 10..20,
    [hasFilter(15)] is false although the range's own [isFiltered] accepts
    15: the default has-filter handler never asks an element its
    [isFiltered]. *)
Lemma hasFilter_isFiltered_counterexample :
  _hasFilterHandler ranged_chart = _defaultHasFilterHandler /\
  ~ (hasFilter ranged_chart (num 15) = true <->
     exists e, In e (filters ranged_chart) /\
               contains_by_predicate e (num 15) = true).
Proof.
  split; [reflexivity |]. intros [_ H].
  assert (E : hasFilter ranged_chart (num 15) = false) by reflexivity.
  rewrite H in E; [discriminate |].
  exists (RangedFilter (num 10) (num 20)). split; [now left | reflexivity].
Qed.

(** *** The default filter handler *)

Lemma filterFunction_predicate_accepts (filters : list value) (d : datum) :
  all_defined filters ->
  filterFunction_predicate filters d = Ok (existsb (fun e => accepts e d) filters).
Proof.
  induction 1 as [| e l He Hl IH]; simpl; [reflexivity |].
  unfold accepts at 1.
  destruct e as [[| | b | n | s | a] | o]; simpl in *; try discriminate;
    try (destruct (le _ d && ge _ d); simpl; [reflexivity | exact IH]).
  destruct (isFiltered o d); simpl; [reflexivity |].
  destruct (le (FilterObj o) d && ge (FilterObj o) d); simpl;
    [reflexivity | exact IH].
Qed.

Lemma filterFunction_predicate_throws (l1 l2 : list value) (e : value)
    (d : datum) :
  all_defined l1 -> existsb (fun x => accepts x d) l1 = false ->
  nullish e = true ->
  filterFunction_predicate (l1 ++ e :: l2) d = Throw TypeError.
Proof.
  intros H1 Ha He. induction H1 as [| x l Hx Hl IH]; simpl.
  - now destruct e as [[| | b | n | s | a] | o].
  - simpl in Ha. apply orb_false_iff in Ha as [Hax Hal].
    unfold accepts in Hax. apply orb_false_iff in Hax as [Hp Hc].
    destruct x as [[| | b | n | s | a] | o]; simpl in *; try discriminate;
      rewrite ?Hp, Hc; simpl; now apply IH.
Qed.

(** C4, as the code has it.  The default filter handler follows the policy
    table on lists of values: an empty list clears the dimension's filter; a
    single element that is neither null nor undefined and carries no
    [isFiltered] goes to [filterExact]; a single element whose [filterType]
    is ["RangedFilter"] goes to [filterRange], which receives the element,
    the array of its bounds; every other list installs, by [filterFunction],
    a predicate which, no element being null or undefined, accepts a datum
    exactly when some element's own [isFiltered] accepts it or the element
    compares equal-or-within ([<=] and [>=]) to it.  In each of these cases
    the handler returns the list it was given.  On a single element that is
    null or undefined the handler throws a TypeError and calls nothing on
    the dimension, and the installed predicate throws a TypeError when it
    comes to a null or undefined element before an accepting one. *)
Theorem defaultFilterHandler_policy (dimension : Dimension) (filters : list value) :
  (filters = [] ->
     _defaultFilterHandler dimension filters
       = ([DimFilter null], Ok (Some filters))) /\
  (forall e, filters = [e] -> nullish e = false -> predicate_tagged e = false ->
     _defaultFilterHandler dimension filters
       = ([DimFilterExact e], Ok (Some filters))) /\
  (forall e, filters = [e] -> nullish e = true ->
     _defaultFilterHandler dimension filters = ([], Throw TypeError)) /\
  (forall o, filters = [FilterObj o] -> filterType o = Some "RangedFilter" ->
     _defaultFilterHandler dimension filters
       = ([DimFilterRange (FilterObj o)], Ok (Some filters))) /\
  ((2 <= List.length filters)%nat \/
   (exists o, filters = [FilterObj o] /\
              filterType o <> Some "RangedFilter") ->
     _defaultFilterHandler dimension filters
       = ([DimFilterFunction (filterFunction_predicate filters)],
          Ok (Some filters)) /\
     (all_defined filters ->
      forall d, filterFunction_predicate filters d
                = Ok (existsb (fun e => accepts e d) filters)) /\
     (forall d l1 e l2, filters = l1 ++ e :: l2 -> all_defined l1 ->
        existsb (fun x => accepts x d) l1 = false -> nullish e = true ->
        filterFunction_predicate filters d = Throw TypeError)).
Proof.
  split; [| split; [| split; [| split]]].
  - now intros ->.
  - intros e -> Hn He. now destruct e as [[| | b | n | s | a] | o].
  - intros e -> Hn. now destruct e as [[| | b | n | s | a] | o].
  - intros o -> Ht. simpl. now rewrite Ht.
  - intro H. split; [| split].
    + destruct H as [Hlen | (o & -> & Hr)].
      * destruct filters as [| e1 [| e2 l]]; simpl in Hlen; try lia. reflexivity.
      * simpl. destruct (filterType o) as [t |]; [| reflexivity].
        destruct (String.eqb t "RangedFilter") eqn:E; [| reflexivity].
        apply String.eqb_eq in E. now subst t.
    + intros Hdef d. now apply filterFunction_predicate_accepts.
    + intros d l1 e l2 -> H1 Ha He.
      now apply filterFunction_predicate_throws.
Qed.

Lemma defaultFilterHandler_policy_witness :
  _defaultFilterHandler a_dimension [Data (num 5)]
    = ([DimFilterExact (num 5)], Ok (Some [Data (num 5)])) /\
  (_defaultFilterHandler a_dimension [RangedFilter (num 10) (num 20)]
     = ([DimFilterRange (RangedFilter (num 10) (num 20))],
        Ok (Some [RangedFilter (num 10) (num 20)])) /\
   ToPrimitive (RangedFilter (num 10) (num 20)) = PStr "10,20") /\
  (_defaultFilterHandler a_dimension [Data (num 5); Data (num 7)]
     = ([DimFilterFunction (filterFunction_predicate [Data (num 5); Data (num 7)])],
        Ok (Some [Data (num 5); Data (num 7)])) /\
   forall d, filterFunction_predicate [Data (num 5); Data (num 7)] d
             = Ok (existsb (fun e => accepts e d) [Data (num 5); Data (num 7)])) /\
  _defaultFilterHandler a_dimension [null] = ([], Throw TypeError) /\
  filterFunction_predicate [Data (num 5); undefined] (num 7) = Throw TypeError.
Proof.
  split; [| split; [| split; [| split]]].
  - now apply (defaultFilterHandler_policy a_dimension [Data (num 5)]).
  - split; [| reflexivity].
    destruct (defaultFilterHandler_policy a_dimension
                [RangedFilter (num 10) (num 20)]) as (_ & _ & _ & H & _).
    now apply (H {| elements := [num 10; num 20];
                    isFiltered := fun v => ge v (num 10) && lt v (num 20);
                    filterType := Some "RangedFilter" |}).
  - destruct (defaultFilterHandler_policy a_dimension [Data (num 5); Data (num 7)])
      as (_ & _ & _ & _ & H).
    destruct H as (Hh & Hp & _); [left; simpl; lia |].
    split; [exact Hh | apply Hp; repeat constructor].
  - destruct (defaultFilterHandler_policy a_dimension [null])
      as (_ & _ & H & _).
    now apply (H null).
  - destruct (defaultFilterHandler_policy a_dimension [Data (num 5); undefined])
      as (_ & _ & _ & _ & H).
    destruct H as (_ & _ & Ht); [left; simpl; lia |].
    apply (Ht (num 7) [Data (num 5)] undefined []);
      [reflexivity | repeat constructor | reflexivity | reflexivity].
Defined.

(** C4, counterexample.  A list whose one element is [undefined] has
    exactly one element and that element is not predicate-tagged, yet the
    handler makes no exact-match call: it throws a TypeError when it reads
    [isFiltered] from the element.  Such a list arises from
    [filter(undefined)] on a chart without filters, which with a dimension
    bound therefore throws. *)
Lemma defaultFilterHandler_policy_counterexample :
  predicate_tagged undefined = false /\
  _defaultFilterHandler a_dimension [undefined] = ([], Throw TypeError) /\
  _defaultFilterHandler a_dimension [undefined]
    <> ([DimFilterExact undefined], Ok (Some [undefined])) /\
  toggled bound_empty_chart undefined = [undefined] /\
  filter undefined bound_empty_chart
    = ([CallFilterHandler [undefined]], Throw TypeError).
Proof.
  split; [reflexivity |]. split; [reflexivity |]. split; [discriminate |].
  split; reflexivity.
Qed.

(** The examples of the policy table. *)
Example policy_exact_5 :
  _defaultFilterHandler a_dimension [Data (num 5)]
  = ([DimFilterExact (num 5)], Ok (Some [Data (num 5)])).
Proof. reflexivity. Qed.

Example policy_range_10_20 :
  _defaultFilterHandler a_dimension [RangedFilter (num 10) (num 20)]
  = ([DimFilterRange (RangedFilter (num 10) (num 20))],
     Ok (Some [RangedFilter (num 10) (num 20)])).
Proof. reflexivity. Qed.

Example policy_predicate_5_7 :
  map (filterFunction_predicate [Data (num 5); Data (num 7)])
      [num 5; num 6; num 7]
  = [Ok true; Ok false; Ok true].
Proof. reflexivity. Qed.

(** An element that is [undefined] (or [null]) makes the handler throw when it
    reads [isFiltered] from it. *)
Example policy_undefined_throws :
  _defaultFilterHandler a_dimension [undefined] = ([], Throw TypeError).
Proof. reflexivity. Qed.

(** *** Applying and recording filters *)

Lemma applyFilters_run (l : list value) (c : Chart) :
  applyFilters l c =
    match _dimension c with
    | Some dimension =>
        if has_filter dimension then
          (CallFilterHandler l :: fst (_filterHandler c dimension l),
           match snd (_filterHandler c dimension l) with
           | Ok (Some fs) => Ok (fs, c)
           | Ok None => Ok (l, c)
           | Throw e => Throw e
           end)
        else ([], Ok (l, c))
    | None => ([], Ok (l, c))
    end.
Proof.
  unfold applyFilters, bind, this, emit, lift, ret; simpl.
  destruct (_dimension c) as [d |]; [| reflexivity].
  destruct (has_filter d); [| reflexivity].
  destruct (_filterHandler c d l) as [t [[fs |] | e]]; simpl;
    now rewrite ?app_nil_r.
Qed.

Lemma controls_run (c : Chart) :
  (if negb (root_is_null c) && hasFilter c undefined
   then turnOnControls else turnOffControls) c = (controls c, Ok (tt, c)).
Proof.
  unfold controls, trace.
  destruct (negb (root_is_null c) && hasFilter c undefined);
    unfold turnOnControls, turnOffControls, bind, this, emit, ret; simpl;
    now destruct (root_truthy c).
Qed.

(** One step of a method: run the first action of a sequence. *)
Ltac run_step := rewrite run_bind; simpl; rewrite <- ?run_parts.

Lemma filter_run (v : value) (c : Chart) :
  filter v c =
    match applyFilters (toggled c v) c with
    | (t, Ok (fs, _)) =>
        (t ++ filtered_event v ++ controls (set_filters fs c),
         Ok (tt, set_filters fs c))
    | (t, Throw e) => (t, Throw e)
    end.
Proof.
  assert (L : forall c', _invokeFilteredListener v c'
                         = (filtered_event v, Ok (tt, c'))).
  { intro c'. unfold _invokeFilteredListener, filtered_event.
    now destruct v as [[| | | | |] |]. }
  assert (K : forall fs,
    (assign (set_filters fs);;
     _invokeFilteredListener v;;
     c0 <- this;;
     (if negb (root_is_null c0) && hasFilter c0 undefined
      then turnOnControls else turnOffControls)) c
    = (filtered_event v ++ controls (set_filters fs c),
       Ok (tt, set_filters fs c))).
  { intro fs. run_step. rewrite run_bind, L.
    unfold trace, outcome. rewrite run_bind; simpl.
    unfold trace, outcome. now rewrite controls_run. }
  unfold filter. run_step. rewrite run_bind, applyFilters_run.
  destruct (_dimension c) as [d |].
  - destruct (has_filter d).
    + destruct (snd (_filterHandler c d (toggled c v))) as [[fs |] | e];
        try reflexivity; unfold trace, outcome; now rewrite K.
    + unfold trace, outcome. now rewrite K.
  - unfold trace, outcome. now rewrite K.
Qed.

(** C10, as the code has it.  [applyFilters] returns the candidate list
    unchanged when no dimension is bound, when the bound dimension has no
    [filter] member, and when the installed filter handler returns a falsy
    value.  Hence without a dimension [filter(v)] returns normally, having
    stored the list it computed; it dispatches the [filtered] event with [v]
    whenever [v] is not [undefined]. *)
Theorem applyFilters_unchanged (c : Chart) (candidateList : list value) :
  (_dimension c = None ->
     applyFilters candidateList c = ([], Ok (candidateList, c))) /\
  (forall d, _dimension c = Some d -> has_filter d = false ->
     applyFilters candidateList c = ([], Ok (candidateList, c))) /\
  (forall d t, _dimension c = Some d -> has_filter d = true ->
     _filterHandler c d candidateList = (t, Ok None) ->
     applyFilters candidateList c
       = (CallFilterHandler candidateList :: t, Ok (candidateList, c))) /\
  (forall v, _dimension c = None ->
     outcome (filter v) c = Ok (tt, set_filters (toggled c v) c) /\
     trace (filter v) c
       = filtered_event v ++ controls (set_filters (toggled c v) c) /\
     (v <> undefined -> In (Dispatch "filtered" [v]) (trace (filter v) c))).
Proof.
  split; [| split; [| split]].
  - intro H. rewrite applyFilters_run. now rewrite H.
  - intros d H H0. rewrite applyFilters_run. now rewrite H, H0.
  - intros d t H H0 H1. rewrite applyFilters_run. now rewrite H, H0, H1.
  - intros v H.
    assert (R : filter v c = (filtered_event v ++ controls (set_filters (toggled c v) c),
                              Ok (tt, set_filters (toggled c v) c))).
    { rewrite filter_run, applyFilters_run. now rewrite H. }
    unfold outcome, trace. rewrite R. simpl. repeat split.
    intro Hv. apply in_or_app. left.
    destruct v as [[| | | | |] |]; simpl; auto.
Qed.

Lemma applyFilters_unchanged_witness :
  _dimension fresh_chart = None /\
  outcome (filter (num 5)) fresh_chart
    = Ok (tt, set_filters [Data (num 5)] fresh_chart) /\
  In (Dispatch "filtered" [Data (num 5)]) (trace (filter (num 5)) fresh_chart).
Proof.
  split; [reflexivity |].
  destruct (applyFilters_unchanged fresh_chart []) as (_ & _ & _ & H).
  destruct (H (Data (num 5)) eq_refl) as (Ho & _ & Hin).
  split; [exact Ho | apply Hin; discriminate].
Defined.

(** C10, counterexample.  On a chart without dimension, [filter(undefined)]
    stores the toggled list but dispatches no [filtered] event. *)
Lemma filter_undefined_counterexample :
  _dimension fresh_chart = None /\
  outcome (filter undefined) fresh_chart
    = Ok (tt, set_filters [undefined] fresh_chart) /\
  ~ (exists args, In (Dispatch "filtered" args)
                     (trace (filter undefined) fresh_chart)).
Proof.
  split; [reflexivity |]. split; [reflexivity |].
  intros (args & H). vm_compute in H. exact H.
Qed.

(** *** Reset *)

(** C7, as the code has it.  With the default reset, has-filter and filter
    handlers, whatever the filter list was, [filter(null)] returns normally
    and leaves the list empty, and [hasFilter()] is then false. *)
Theorem filter_null_resets (c : Chart) :
  _resetFilterHandler c = _defaultResetFilterHandler ->
  _hasFilterHandler c = _defaultHasFilterHandler ->
  _filterHandler c = _defaultFilterHandler ->
  exists c', outcome (filter null) c = Ok (tt, c') /\
             filters c' = [] /\ hasFilter c' undefined = false.
Proof.
  intros Hr Hh Hf. exists (set_filters [] c).
  unfold outcome. rewrite filter_run, applyFilters_run.
  unfold toggled; simpl. rewrite Hr, Hf. unfold _defaultResetFilterHandler.
  unfold hasFilter; simpl. rewrite Hh.
  destruct (_dimension c) as [d |]; [destruct (has_filter d) |]; simpl; auto.
Qed.

Lemma filter_null_resets_witness :
  exists c', outcome (filter null)
               (set_filters [Data (num 3); RangedFilter (num 10) (num 20)]
                  (set_dimension (Some a_dimension) fresh_chart))
             = Ok (tt, c') /\
             filters c' = [] /\ hasFilter c' undefined = false.
Proof.
  now apply (filter_null_resets
               (set_filters [Data (num 3); RangedFilter (num 10) (num 20)]
                  (set_dimension (Some a_dimension) fresh_chart))).
Defined.

(** C7, counterexample.  A chart with the default reset handler and a custom
    filter handler that records its own list: after [filter(null)] the filter
    list is [[0]] and [hasFilter()] is true. *)
Lemma filter_null_counterexample :
  _resetFilterHandler pinned_chart = _defaultResetFilterHandler /\
  exists c', outcome (filter null) pinned_chart = Ok (tt, c') /\
             filters c' = [Data (num 0)] /\ hasFilter c' undefined = true.
Proof.
  split; [reflexivity |].
  eexists. split; [reflexivity |]. split; reflexivity.
Qed.

(** *** Counting applications of the filter handler *)

Lemma applications_app (t1 t2 : Trace) :
  applications (t1 ++ t2) = (applications t1 + applications t2)%nat.
Proof. unfold applications. now rewrite filter_app, length_app. Qed.

Lemma applications_controls (c : Chart) : applications (controls c) = 0%nat.
Proof.
  unfold controls, trace.
  destruct (negb (root_is_null c) && hasFilter c undefined);
    unfold turnOnControls, turnOffControls, bind, this, emit, ret; simpl;
    now destruct (root_truthy c).
Qed.

Lemma applications_filtered_event (v : value) :
  applications (filtered_event v) = 0%nat.
Proof. now destruct v as [[| | | | |] |]. Qed.

Lemma applications_defaultFilterHandler (d : Dimension) (l : list value) :
  applications (fst (_defaultFilterHandler d l)) = 0%nat.
Proof.
  destruct l as [| e [| e' l]]; try reflexivity.
  simpl. destruct (get_isFiltered e) as [[p |] | x]; try reflexivity.
  now destruct (is_RangedFilter e).
Qed.

Lemma defaultFilterHandler_returns (d : Dimension) (l : list value) :
  all_defined l -> snd (_defaultFilterHandler d l) = Ok (Some l).
Proof.
  intro H. destruct l as [| e [| e' l]]; try reflexivity.
  inversion H as [| ? ? He _]; subst. simpl.
  destruct e as [[| | b | n | s | a] | o]; simpl in *; try discriminate;
    try reflexivity.
  now destruct (match filterType o with Some t => (t =? "RangedFilter")%string | None => false end).
Qed.

Lemma filter_returns (c : Chart) (v : value) :
  _filterHandler c = _defaultFilterHandler ->
  all_defined (toggled c v) ->
  outcome (filter v) c = Ok (tt, set_filters (toggled c v) c).
Proof.
  intros Hf Hl. unfold outcome. rewrite filter_run, applyFilters_run, Hf.
  destruct (_dimension c) as [d |]; [| reflexivity].
  destruct (has_filter d); [| reflexivity].
  now rewrite defaultFilterHandler_returns.
Qed.

Lemma dimension_calls_app (t1 t2 : Trace) :
  dimension_calls (t1 ++ t2) = (dimension_calls t1 + dimension_calls t2)%nat.
Proof. unfold dimension_calls. now rewrite filter_app, length_app. Qed.

Lemma dimension_calls_controls (c : Chart) : dimension_calls (controls c) = 0%nat.
Proof.
  unfold controls, trace.
  destruct (negb (root_is_null c) && hasFilter c undefined);
    unfold turnOnControls, turnOffControls, bind, this, emit, ret; simpl;
    now destruct (root_truthy c).
Qed.

Lemma dimension_calls_filtered_event (v : value) :
  dimension_calls (filtered_event v) = 0%nat.
Proof. now destruct v as [[| | | | |] |]. Qed.

Lemma dimension_calls_defaultFilterHandler (d : Dimension) (l : list value) :
  all_defined l -> dimension_calls (fst (_defaultFilterHandler d l)) = 1%nat.
Proof.
  intro H. destruct l as [| e [| e' l]]; try reflexivity.
  inversion H as [| ? ? He _]; subst. simpl.
  destruct e as [[| | b | n | s | a] | o]; simpl in *; try discriminate;
    try reflexivity.
  now destruct (match filterType o with Some t => (t =? "RangedFilter")%string | None => false end).
Qed.

(** With the default filter handler on a bound dimension, one [filter] call
    that stores a list of values makes exactly one call on the dimension. *)
Lemma filter_dimension_calls (c : Chart) (d : Dimension) (v : value) :
  _filterHandler c = _defaultFilterHandler ->
  _dimension c = Some d -> has_filter d = true ->
  all_defined (toggled c v) ->
  dimension_calls (trace (filter v) c) = 1%nat.
Proof.
  intros Hf Hd Hh Hl. unfold trace.
  rewrite filter_run, applyFilters_run, Hd, Hh, Hf.
  pose proof (dimension_calls_defaultFilterHandler d (toggled c v) Hl) as H1.
  rewrite (defaultFilterHandler_returns d _ Hl). cbn [fst].
  change (CallFilterHandler (toggled c v) :: ?t)
    with ([CallFilterHandler (toggled c v)] ++ t).
  now rewrite !dimension_calls_app, H1, dimension_calls_filtered_event,
    dimension_calls_controls.
Qed.

(** With the default filter handler on a bound dimension, one [filter] call
    applies the handler exactly once, whether or not the handler throws. *)
Lemma filter_applications (c : Chart) (d : Dimension) (v : value) :
  _filterHandler c = _defaultFilterHandler ->
  _dimension c = Some d -> has_filter d = true ->
  applications (trace (filter v) c) = 1%nat.
Proof.
  intros Hf Hd Hh. unfold trace.
  rewrite filter_run, applyFilters_run, Hd, Hh, Hf.
  pose proof (applications_defaultFilterHandler d (toggled c v)) as H0.
  destruct (snd (_defaultFilterHandler d (toggled c v))) as [[fs |] | e]; simpl;
    change (CallFilterHandler (toggled c v) :: ?t)
      with ([CallFilterHandler (toggled c v)] ++ t);
    rewrite ?applications_app, ?H0, ?applications_filtered_event,
      ?applications_controls; reflexivity.
Qed.

(** *** Toggling keeps a list of defined values defined *)

Lemma remove_all_defined (l : list value) (f : value) :
  all_defined l -> all_defined (_defaultRemoveFilterHandler l f).
Proof.
  induction 1 as [| e l He Hl IH]; simpl; [constructor |].
  destruct (le e f && ge e f); [exact Hl | now constructor].
Qed.

Lemma toggle_all_defined (c : Chart) (l : list value) (f : value) :
  default_handlers c -> all_defined l -> nullish f = false ->
  all_defined (toggle c l f).
Proof.
  intros (_ & _ & Hr & Ha & _) Hl Hf. unfold toggle. rewrite Hr, Ha.
  destruct (_hasFilterHandler c l f).
  - now apply remove_all_defined.
  - unfold _defaultAddFilterHandler, all_defined.
    apply Forall_app. split; [exact Hl | now constructor].
Qed.

Lemma toggles_all_defined (c : Chart) (inner : list datum) (l : list value) :
  default_handlers c -> all_defined l -> all_defined (map Data inner) ->
  all_defined (fold_left (fun fs f => toggle c fs (Data f)) inner l).
Proof.
  intros Hc. revert l. induction inner as [| f inner IH]; intros l Hl Hi; simpl.
  - exact Hl.
  - inversion Hi; subst. apply IH; [| assumption].
    now apply toggle_all_defined.
Qed.

(** *** Replacing the filter *)

Lemma replaceFilter_run (v : value) (c : Chart) :
  replaceFilter v c
  = filter v (set_filters (_resetFilterHandler c (_filters c)) c).
Proof.
  unfold replaceFilter. run_step. rewrite run_bind; simpl.
  now rewrite <- run_parts.
Qed.

Lemma filter_null_run (c : Chart) (d : Dimension) :
  _filterHandler c = _defaultFilterHandler ->
  _resetFilterHandler c = _defaultResetFilterHandler ->
  _dimension c = Some d -> has_filter d = true ->
  filter null c
  = (CallFilterHandler [] :: DimFilter null :: filtered_event null
       ++ controls (set_filters [] c),
     Ok (tt, set_filters [] c)).
Proof.
  intros Hf Hr Hd Hh. rewrite filter_run, applyFilters_run, Hd, Hh, Hf.
  unfold toggled; simpl. now rewrite Hr.
Qed.

Lemma default_handlers_set_filters (l : list value) (c : Chart) :
  default_handlers c -> default_handlers (set_filters l c).
Proof. now intros (? & ? & ? & ? & ?). Qed.

Lemma toggled_all_defined (c : Chart) (v : value) :
  default_handlers c -> all_defined (_filters c) -> documented_argument v ->
  all_defined (toggled c v).
Proof.
  intros Hc Hl Hv. unfold toggled. unfold documented_argument in Hv.
  destruct (toggle_group v) as [inner |].
  - now apply toggles_all_defined.
  - destruct v as [[| | b | n | s | a] | o];
      try (apply toggle_all_defined; auto; fail).
    + now elim Hv.
    + destruct Hc as (_ & _ & _ & _ & Hr). rewrite Hr. constructor.
Qed.

(** C3.  On a chart with the default handlers and a bound dimension that has
    a [filter] member, [replaceFilter(v)] ends exactly as [filter(null)]
    followed by [filter(v)] does (same chart, hence same filter list, or the
    same exception), while the filter handler is applied to the dimension once
    by [replaceFilter(v)] and twice by the two calls.  For [v] in one of the
    documented forms both return normally, and the dimension has then
    received one call from [replaceFilter(v)] and two from the two calls. *)
Theorem replaceFilter_applies_once (c : Chart) (d : Dimension) (v : value) :
  default_handlers c ->
  _dimension c = Some d -> has_filter d = true ->
  outcome (replaceFilter v) c = outcome (filter null ;; filter v) c /\
  option_map filters (final (replaceFilter v) c)
    = option_map filters (final (filter null ;; filter v) c) /\
  applications (trace (replaceFilter v) c) = 1%nat /\
  applications (trace (filter null ;; filter v) c) = 2%nat /\
  (documented_argument v ->
   (exists c', outcome (replaceFilter v) c = Ok (tt, c')) /\
   dimension_calls (trace (replaceFilter v) c) = 1%nat /\
   dimension_calls (trace (filter null ;; filter v) c) = 2%nat).
Proof.
  intros Hc Hd Hh.
  pose proof Hc as (Hf & _ & _ & _ & Hr).
  set (c0 := set_filters [] c).
  assert (R : replaceFilter v c = filter v c0).
  { rewrite replaceFilter_run, Hr. reflexivity. }
  assert (S : (filter null ;; filter v) c
              = ((CallFilterHandler [] :: DimFilter null :: filtered_event null
                    ++ controls c0) ++ trace (filter v) c0,
                 outcome (filter v) c0)).
  { rewrite run_bind, (filter_null_run c d Hf Hr Hd Hh). reflexivity. }
  assert (E : outcome (replaceFilter v) c = outcome (filter null ;; filter v) c).
  { unfold outcome at 1 2. now rewrite R, S. }
  split; [exact E |]. split; [unfold final; now rewrite E |].
  split; [| split].
  - unfold trace. rewrite R. now apply (filter_applications c0 d).
  - unfold trace at 1. rewrite S. cbn [fst].
    rewrite applications_app, (filter_applications c0 d v Hf Hd Hh).
    change (CallFilterHandler [] :: DimFilter null :: ?t)
      with ([CallFilterHandler []; DimFilter null] ++ t).
    now rewrite !applications_app, applications_filtered_event,
      applications_controls.
  - intro Hv.
    assert (Hl : all_defined (toggled c0 v)).
    { apply toggled_all_defined;
        [now apply default_handlers_set_filters | constructor | exact Hv]. }
    assert (D : dimension_calls (trace (filter v) c0) = 1%nat)
      by now apply (filter_dimension_calls c0 d).
    split; [| split].
    + exists (set_filters (toggled c0 v) c0).
      rewrite E. unfold outcome at 1. rewrite S. cbn [snd].
      now apply filter_returns.
    + unfold trace at 1. rewrite R. exact D.
    + unfold trace at 1. rewrite S. cbn [fst].
      rewrite dimension_calls_app, D.
      change (CallFilterHandler [] :: DimFilter null :: ?t)
        with ([CallFilterHandler []; DimFilter null] ++ t).
      now rewrite !dimension_calls_app, dimension_calls_filtered_event,
        dimension_calls_controls.
Qed.

Lemma replaceFilter_applies_once_witness :
  default_handlers bound_chart /\
  option_map filters (final (replaceFilter (num 5)) bound_chart)
    = option_map filters (final (filter null ;; filter (num 5)) bound_chart) /\
  applications (trace (replaceFilter (num 5)) bound_chart) = 1%nat /\
  applications (trace (filter null ;; filter (num 5)) bound_chart) = 2%nat /\
  (exists c', outcome (replaceFilter (num 5)) bound_chart = Ok (tt, c')) /\
  dimension_calls (trace (replaceFilter (num 5)) bound_chart) = 1%nat /\
  dimension_calls (trace (filter null ;; filter (num 5)) bound_chart) = 2%nat.
Proof.
  assert (H : default_handlers bound_chart) by (repeat split).
  split; [exact H |].
  destruct (replaceFilter_applies_once bound_chart a_dimension (num 5) H
              eq_refl eq_refl) as (_ & Hl & H1 & H2 & Hd).
  repeat (split; [assumption |]). apply Hd. discriminate.
Defined.

(** Without a bound dimension there is nothing to apply: neither way of
    replacing the filter calls the filter handler. *)
Lemma replaceFilter_unbound (c : Chart) (v : value) :
  _dimension c = None ->
  applications (trace (replaceFilter v) c) = 0%nat /\
  applications (trace (filter null ;; filter v) c) = 0%nat.
Proof.
  intro Hd.
  assert (F : forall u c', _dimension c' = None ->
                applications (trace (filter u) c') = 0%nat /\
                exists fs, outcome (filter u) c' = Ok (tt, set_filters fs c')).
  { intros u c' H. unfold trace, outcome.
    rewrite filter_run, applyFilters_run, H. simpl.
    rewrite applications_app, applications_filtered_event, applications_controls.
    eauto. }
  split.
  - unfold trace. rewrite replaceFilter_run. now apply F.
  - destruct (F null c Hd) as (H0 & fs & Ho).
    unfold trace at 1. rewrite run_bind, (run_parts (filter null) c), Ho.
    simpl. rewrite applications_app, H0. now apply F.
Qed.

(** *** Toggling twice *)

Lemma equal_or_within_sym (a b : value) :
  le a b && ge a b = le b a && ge b a.
Proof. unfold le, ge. apply andb_comm. Qed.

Lemma toggled_single (c : Chart) (v : value) :
  nullish v = false -> toggle_group v = None ->
  toggled c v = toggle c (_filters c) v.
Proof.
  intros Hn Hg. unfold toggled. rewrite Hg.
  now destruct v as [[| | | | |] |].
Qed.

Lemma has_false_none_matches (l : list value) (v : value) :
  nullish v = false -> _defaultHasFilterHandler l v = false ->
  Forall (fun e => le e v && ge e v = false) l.
Proof.
  unfold _defaultHasFilterHandler. intros -> H.
  induction l as [| e l IH]; [constructor |].
  simpl in H. apply orb_false_iff in H as [He Hl].
  constructor; [now rewrite equal_or_within_sym | now apply IH].
Qed.

Lemma remove_appended (l : list value) (v : value) :
  Forall (fun e => le e v && ge e v = false) l ->
  le v v && ge v v = true ->
  _defaultRemoveFilterHandler (l ++ [v]) v = l.
Proof.
  intros Hl Hv. induction Hl as [| e l He Hl IH]; simpl.
  - now rewrite Hv.
  - now rewrite He, IH.
Qed.

Lemma has_appended (l : list value) (v : value) :
  nullish v = false -> le v v && ge v v = true ->
  _defaultHasFilterHandler (l ++ [v]) v = true.
Proof.
  intros Hn Hv. unfold _defaultHasFilterHandler. rewrite Hn.
  rewrite existsb_app. simpl. rewrite Hv. now rewrite orb_true_r.
Qed.

(** C6, as the code has it.  With the default handlers, for a value [v] that
    is neither null nor undefined, not an array of arrays, and comparable to
    itself ([v <= v && v >= v]): two successive [filter(v)] calls return
    normally, and
    - if [v] was not in the list ([hasFilter(v)] false), the list is back to
      exactly what it was;
    - if it was, the first matching element has been removed and, provided
      no other element matches, [v] now stands at the end of the list. *)
Theorem filter_twice (c : Chart) (v : value) :
  default_handlers c ->
  all_defined (filters c) ->
  nullish v = false -> toggle_group v = None ->
  le v v && ge v v = true ->
  exists c',
    outcome (filter v ;; filter v) c = Ok (tt, c') /\
    (hasFilter c v = false -> filters c' = filters c) /\
    (hasFilter c v = true ->
     _defaultHasFilterHandler (_defaultRemoveFilterHandler (filters c) v) v = false ->
     filters c' = _defaultRemoveFilterHandler (filters c) v ++ [v]).
Proof.
  intros Hc Hl Hn Hg Hv.
  pose proof Hc as (Hf & Hh & Hr & Ha & _).
  set (l1 := toggle c (_filters c) v).
  set (c1 := set_filters l1 c).
  assert (D1 : all_defined l1) by now apply toggle_all_defined.
  assert (O1 : outcome (filter v) c = Ok (tt, c1)).
  { rewrite filter_returns; rewrite ?toggled_single; auto. }
  assert (O2 : outcome (filter v) c1
               = Ok (tt, set_filters (toggle c l1 v) c)).
  { assert (T : toggled c1 v = toggle c l1 v) by now apply toggled_single.
    rewrite filter_returns; rewrite ?T; auto.
    apply toggle_all_defined; auto. }
  exists (set_filters (toggle c l1 v) c). split; [| split].
  - unfold outcome at 1. rewrite run_bind, (run_parts (filter v) c), O1.
    simpl. exact O2.
  - unfold hasFilter, filters. simpl. intro H. subst l1.
    unfold toggle at 2. rewrite H, Ha. unfold _defaultAddFilterHandler.
    rewrite Hh in H. unfold toggle. rewrite Hh, Hr.
    rewrite has_appended by assumption.
    apply remove_appended; [| assumption].
    now apply has_false_none_matches.
  - unfold hasFilter, filters. simpl. intros H H'. subst l1.
    unfold toggle at 2. rewrite H, Hr.
    unfold toggle. now rewrite Hh, H', Ha.
Qed.

Lemma filter_twice_witness :
  default_handlers two_filters_chart /\
  exists c',
    outcome (filter (num 6) ;; filter (num 6)) two_filters_chart = Ok (tt, c') /\
    (hasFilter two_filters_chart (num 6) = false ->
     filters c' = filters two_filters_chart) /\
    (hasFilter two_filters_chart (num 6) = true ->
     _defaultHasFilterHandler
       (_defaultRemoveFilterHandler (filters two_filters_chart) (num 6)) (num 6)
       = false ->
     filters c'
       = _defaultRemoveFilterHandler (filters two_filters_chart) (num 6)
           ++ [Data (num 6)]).
Proof.
  assert (H : default_handlers two_filters_chart) by (repeat split).
  split; [exact H |].
  apply (filter_twice two_filters_chart (num 6) H);
    try reflexivity. repeat constructor.
Defined.

(** C6, counterexample.  Toggling 5 twice on the list [[5, 7]] leaves
    [[7, 5]]; toggling NaN twice on the empty list leaves [[NaN, NaN]]. *)
Lemma filter_twice_counterexample :
  default_handlers two_filters_chart /\
  option_map filters (final (filter (num 5) ;; filter (num 5)) two_filters_chart)
    = Some [Data (num 7); Data (num 5)] /\
  option_map filters (final (filter (num 5) ;; filter (num 5)) two_filters_chart)
    <> Some (filters two_filters_chart) /\
  option_map filters (final (filter (DNum NaN) ;; filter (DNum NaN)) fresh_chart)
    = Some [Data (DNum NaN); Data (DNum NaN)].
Proof.
  split; [repeat split |]. split; [reflexivity |]. split; [| reflexivity].
  discriminate.
Qed.

(** *** Geometry cache *)

Lemma width_cached (c : Chart) :
  isNumber (_width c) = true -> width c = ([], Ok (_width c, c)).
Proof. intro H. unfold width, bind, this, ret; simpl. now rewrite H. Qed.

Lemma height_cached (c : Chart) :
  isNumber (_height c) = true -> height c = ([], Ok (_height c, c)).
Proof. intro H. unfold height, bind, this, ret; simpl. now rewrite H. Qed.

Lemma width_returns_cache (c c' : Chart) (t : Trace) (w : datum) :
  width c = (t, Ok (w, c')) -> _width c' = w.
Proof.
  unfold width. rewrite run_bind; simpl. rewrite <- run_parts, run_bind.
  destruct ((if negb (isNumber (_width c))
             then element <- root_node;;
                  w0 <- call_calc (_widthCalc c) _defaultWidthCalc element;;
                  assign (set_width w0)
             else ret tt) c) as [t0 [[u c0] | e]]; simpl.
  - now intros [= _ <- <-].
  - discriminate.
Qed.

Lemma root_node_run (c : Chart) (r : Selection) :
  _root c = SlotObj r -> root_node c = ([], Ok (node r, c)).
Proof. intro H. unfold root_node, bind, this, ret; simpl. now rewrite H. Qed.

Lemma times_width_cached (n : nat) (c : Chart) :
  isNumber (_width c) = true ->
  times n width c = ([], Ok (repeat (_width c) n, c)).
Proof.
  intro H. induction n as [| n IH]; simpl; [reflexivity |].
  rewrite run_bind, (width_cached c H). simpl.
  unfold trace, outcome. rewrite run_bind, IH. reflexivity.
Qed.

Lemma render_with_present (hook : M unit) (c : Chart) :
  all_present c ->
  render_with hook c =
    (Dispatch "preRender" [] :: trace (hook ;; finish_render) (cleared c),
     outcome (hook ;; finish_render) (cleared c)).
Proof.
  intro H. unfold all_present in H.
  assert (E : (match _mandatoryAttributesList c with
               | Some l => forEach checkForMandatoryAttributes l
               | None => ret tt
               end) (cleared c) = ([], Ok (tt, cleared c))).
  { destruct (_mandatoryAttributesList c) as [l |]; [| reflexivity].
    destruct (check_all (cleared c) l)
      as [[_ E] | (before & a & after & El & _ & Ha & _)]; [exact E |].
    exfalso. rewrite Forall_forall in H.
    change (missing (cleared c) a) with (missing c a) in Ha.
    rewrite H in Ha; [discriminate |]. rewrite El. apply in_elt. }
  assert (T : (c0 <- this;;
               match _mandatoryAttributesList c0 with
               | Some l => forEach checkForMandatoryAttributes l
               | None => ret tt
               end;;
               hook;; finish_render) (cleared c)
              = (hook ;; finish_render) (cleared c)).
  { run_step. rewrite run_bind.
    change (_mandatoryAttributesList (cleared c)) with (_mandatoryAttributesList c).
    rewrite E. simpl. now rewrite <- run_parts. }
  unfold render_with. do 2 run_step. fold (cleared c).
  rewrite run_bind; simpl. fold finish_render.
  unfold trace, outcome. now rewrite T.
Qed.

Lemma width_recomputes (c : Chart) (r : Selection) (f : option Element -> datum) :
  _root c = SlotObj r -> _widthCalc c = FunctionCalc f ->
  isNumber (_width c) = false ->
  width c = ([CallCalc], Ok (f (node r), set_width (f (node r)) c)).
Proof.
  intros Hr Hc Hw. unfold width. run_step. rewrite Hw. cbn [negb].
  rewrite run_bind, run_bind, (root_node_run c r Hr). cbn [app].
  unfold trace at 1, outcome at 1. rewrite run_bind, Hc. reflexivity.
Qed.

Lemma times_width_recomputes (n : nat) (c : Chart) (r : Selection)
    (f : option Element -> datum) :
  _root c = SlotObj r -> _widthCalc c = FunctionCalc f ->
  isNumber (_width c) = false -> isNumber (f (node r)) = false ->
  exists c', times n width c
             = (repeat CallCalc n, Ok (repeat (f (node r)) n, c')).
Proof.
  revert c. induction n as [| n IH]; intros c Hr Hc Hw Hf.
  - eexists. reflexivity.
  - destruct (IH (set_width (f (node r)) c) Hr Hc Hf Hf) as (c' & E).
    exists c'. cbn [times].
    rewrite run_bind, (width_recomputes c r f Hr Hc Hw).
    unfold trace, outcome. rewrite run_bind, E. cbn.
    now rewrite app_nil_r.
Qed.

Lemma defaultWidthCalc_measured (c : Chart) (e : Element) (w m : Z)
    (h : datum) :
  boundingClientRect e = Some (num w, h) -> _minWidth c = num m ->
  _defaultWidthCalc (Some e) c
    = ([GetBoundingClientRect], Ok (num (at_least m w), c)).
Proof.
  intros Hb Hm.
  unfold _defaultWidthCalc, measure, bind, this, emit, ret, at_least, gt, lt;
    simpl.
  rewrite Hb, Hm. simpl. now destruct (w =? 0), (m <? w).
Qed.

Lemma defaultWidthCalc_unmeasured (c : Chart) (element : option Element) :
  element = None \/ (exists e, element = Some e /\ boundingClientRect e = None) ->
  _defaultWidthCalc element c = ([], Ok (_minWidth c, c)).
Proof.
  intros [-> | (e & -> & Hb)];
    unfold _defaultWidthCalc, measure, bind, this, emit, ret; simpl;
    rewrite ?Hb; reflexivity.
Qed.

Lemma width_measures (c : Chart) (r : Selection) (t : Trace) (w : datum) :
  _root c = SlotObj r -> _widthCalc c = DefaultCalc ->
  isNumber (_width c) = false ->
  _defaultWidthCalc (node r) c = (t, Ok (w, c)) ->
  width c = (t, Ok (w, set_width w c)).
Proof.
  intros Hr Hc Hw E. unfold width. run_step. rewrite Hw. cbn [negb].
  rewrite run_bind, run_bind, (root_node_run c r Hr). cbn [app].
  unfold trace at 1, outcome at 1. rewrite run_bind, Hc. cbn [call_calc].
  rewrite E. cbn. now rewrite !app_nil_r.
Qed.

Lemma width_unanchored_throws (c : Chart) :
  (forall r, _root c <> SlotObj r) -> isNumber (_width c) = false ->
  width c = ([], Throw TypeError).
Proof.
  intros Hr Hw. unfold width, root_node, bind, this, throw; simpl.
  rewrite Hw. simpl.
  destruct (_root c) as [| | r] eqn:E; try reflexivity.
  now destruct (Hr r).
Qed.

(** C9, as the code has it.  The geometry cache.
    - Replacing the width (height) calculator empties the width (height)
      cache.
    - A cached number is returned as it is: no calculator runs, nothing is
      measured, the chart is unchanged.  So once a [width()] call has
      yielded a number, all further [width()] calls return it without any
      recomputation.
    - Only a number counts as cached.  On an anchored chart, a calculator
      function that yields something else (NaN, a string, undefined) is run
      again by every [width()] call.
    - On an anchored chart, after [width(z)] with a non-zero number [z] (300,
      say) any number of [width()] calls all return [z] and leave no trace:
      the anchor is not measured.
    - On an anchored chart, after [width(v)] with a falsy [v] (null, say) the
      next [width()] measures the anchor node once and returns, and caches,
      the measured width when that is non-zero and greater than the minimum
      width, and the minimum width otherwise; with no node, or a node that
      cannot be measured, it returns the minimum width.
    - On a chart that has no root selection, a [width()] that follows a
      replacement of the calculator throws a TypeError.
    - [render()] empties both caches before anything else: its behaviour does
      not depend on what was cached, and the draw hook runs on the chart with
      both caches empty. *)
Theorem geometry_cache (c : Chart) :
  (forall x,
     set_width_arg x c
       = ([], Ok (tt, set_width DUndefined (set_widthCalc (calc_of x) c))) /\
     set_height_arg x c
       = ([], Ok (tt, set_height DUndefined (set_heightCalc (calc_of x) c)))) /\
  (isNumber (_width c) = true -> width c = ([], Ok (_width c, c))) /\
  (isNumber (_height c) = true -> height c = ([], Ok (_height c, c))) /\
  (forall t w c' n, width c = (t, Ok (w, c')) -> isNumber w = true ->
     times n width c' = ([], Ok (repeat w n, c'))) /\
  (forall r f n, _root c = SlotObj r -> isNumber (f (node r)) = false ->
     exists c', (set_width_arg (SizeFunction f) ;; times n width) c
                = (repeat CallCalc n, Ok (repeat (f (node r)) n, c'))) /\
  (forall r z n, _root c = SlotObj r -> z <> 0 ->
     exists c', (set_width_arg (SizeValue (num z)) ;; times n width) c
                = ([], Ok (repeat (num z) n, c'))) /\
  (forall r (v : datum), _root c = SlotObj r -> truthy v = false ->
     (forall e w h m, node r = Some e ->
        boundingClientRect e = Some (num w, h) -> _minWidth c = num m ->
        (set_width_arg (SizeValue v) ;; width) c
          = ([GetBoundingClientRect],
             Ok (num (at_least m w),
                 set_width (num (at_least m w)) (set_widthCalc DefaultCalc c)))) /\
     (node r = None \/
      (exists e, node r = Some e /\ boundingClientRect e = None) ->
        (set_width_arg (SizeValue v) ;; width) c
          = ([], Ok (_minWidth c,
                     set_width (_minWidth c) (set_widthCalc DefaultCalc c))))) /\
  (forall x, (forall r, _root c <> SlotObj r) ->
     (set_width_arg x ;; width) c = ([], Throw TypeError)) /\
  (forall hook w h,
     render_with hook (set_width w (set_height h c)) = render_with hook c) /\
  (forall hook, all_present c ->
     render_with hook c =
       (Dispatch "preRender" [] :: trace (hook ;; finish_render) (cleared c),
        outcome (hook ;; finish_render) (cleared c)) /\
     _width (cleared c) = DUndefined /\ _height (cleared c) = DUndefined).
Proof.
  split; [| split; [| split; [| split; [| split; [| split; [| split;
    [| split; [| split]]]]]]]].
  - intro x. split; reflexivity.
  - apply width_cached.
  - apply height_cached.
  - intros t w c' n H Hw. apply width_returns_cache in H. subst w.
    now apply times_width_cached.
  - intros r f n Hr Hf.
    set (c1 := set_width DUndefined (set_widthCalc (FunctionCalc f) c)).
    destruct (times_width_recomputes n c1 r f Hr eq_refl eq_refl Hf)
      as (c' & E).
    exists c'. rewrite run_bind. cbn. now rewrite <- run_parts.
  - intros r z n Hr Hz.
    assert (Ht : truthy (num z) = true).
    { simpl. apply negb_true_iff. now apply Z.eqb_neq. }
    destruct n as [| n].
    + eexists. reflexivity.
    + set (c1 := set_width DUndefined (set_widthCalc (ConstantCalc (num z)) c)).
      assert (W : width c1 = ([], Ok (num z, set_width (num z) c1))).
      { unfold width. run_step. rewrite run_bind.
        change (isNumber (_width c1)) with false. cbn [negb].
        rewrite run_bind, (root_node_run c1 r Hr). reflexivity. }
      assert (Hs : set_width_arg (SizeValue (num z)) c = ([], Ok (tt, c1))).
      { unfold set_width_arg, calc_of. now rewrite Ht. }
      exists (set_width (num z) c1).
      rewrite run_bind, Hs. cbn [app]. rewrite <- run_parts.
      cbn [times]. rewrite run_bind, W. cbn [app].
      unfold trace, outcome. rewrite run_bind.
      rewrite (times_width_cached n (set_width (num z) c1) eq_refl).
      reflexivity.
  - intros r v Hr Hv.
    set (c1 := set_width DUndefined (set_widthCalc DefaultCalc c)).
    assert (Hs : set_width_arg (SizeValue v) c = ([], Ok (tt, c1))).
    { unfold set_width_arg, calc_of. now rewrite Hv. }
    split.
    + intros e w h m He Hb Hm.
      rewrite run_bind, Hs. cbn [app]. rewrite <- run_parts.
      apply (width_measures c1 r); try reflexivity; [exact Hr |].
      rewrite He. now apply defaultWidthCalc_measured with (h := h).
    + intro Hn.
      rewrite run_bind, Hs. cbn [app]. rewrite <- run_parts.
      apply (width_measures c1 r); try reflexivity; [exact Hr |].
      now apply (defaultWidthCalc_unmeasured c1).
  - intros x Hr. rewrite run_bind.
    change (set_width_arg x c)
      with (@nil Event,
            Ok (tt, set_width DUndefined (set_widthCalc (calc_of x) c))).
    cbn [app]. rewrite <- run_parts. now apply width_unanchored_throws.
  - intros hook w h. reflexivity.
  - intros hook H. split; [now apply render_with_present | split; reflexivity].
Qed.

Lemma geometry_cache_witness :
  _root anchored_chart = SlotObj {| node := Some a_div |} /\
  (exists c', (set_width_arg (SizeValue (num 300)) ;; times 3 width) anchored_chart
              = ([], Ok ([num 300; num 300; num 300], c'))) /\
  (set_width_arg (SizeValue DNull) ;; width) anchored_chart
    = ([GetBoundingClientRect],
       Ok (num 500,
           set_width (num 500) (set_widthCalc DefaultCalc anchored_chart))) /\
  (exists c', (set_width_arg (SizeFunction (fun _ => DNum NaN)) ;; times 2 width)
                anchored_chart
              = ([CallCalc; CallCalc], Ok ([DNum NaN; DNum NaN], c'))) /\
  (set_width_arg (SizeValue (num 300)) ;; width) fresh_chart
    = ([], Throw TypeError).
Proof.
  destruct (geometry_cache anchored_chart)
    as (_ & _ & _ & _ & Hnan & H300 & Hnull & _).
  destruct (geometry_cache fresh_chart)
    as (_ & _ & _ & _ & _ & _ & _ & Hthrow & _).
  split; [reflexivity |]. split; [| split; [| split]].
  - apply (H300 {| node := Some a_div |} 300 3%nat eq_refl). lia.
  - destruct (Hnull {| node := Some a_div |} DNull eq_refl eq_refl) as [H _].
    now apply (H a_div 500 (num 320) 200).
  - now apply (Hnan {| node := Some a_div |} (fun _ => DNum NaN) 2%nat).
  - apply (Hthrow (SizeValue (num 300))). discriminate.
Defined.

(** C9, counterexample.  A width calculator that yields NaN is run by each
    of three successive [width()] calls, with no replacement of the
    calculator in between: the width is recomputed more than once.  And on a
    chart that was never anchored, [width()] after [width(300)] does not
    return 300: it throws a TypeError. *)
Lemma geometry_cache_counterexample :
  _root anchored_chart = SlotObj {| node := Some a_div |} /\
  (set_width_arg (SizeFunction (fun _ => DNum NaN)) ;; times 3 width)
     anchored_chart
    = ([CallCalc; CallCalc; CallCalc],
       Ok ([DNum NaN; DNum NaN; DNum NaN],
           set_width (DNum NaN)
             (set_widthCalc (FunctionCalc (fun _ => DNum NaN)) anchored_chart))) /\
  outcome (set_width_arg (SizeValue (num 300)) ;; width) fresh_chart
    = Throw TypeError.
Proof. repeat split. Qed.

(** On the 500 x 320 anchor: after [width(null)] the next [width()] measures
    the anchor and returns 500. *)
Example width_after_null :
  (set_width_arg (SizeValue DNull) ;; width) anchored_chart
  = ([GetBoundingClientRect],
     Ok (num 500, set_width (num 500) (set_widthCalc DefaultCalc anchored_chart))).
Proof. reflexivity. Qed.

(** A chart that was never anchored has no root to take the node from. *)
Example width_unanchored :
  outcome (set_width_arg (SizeValue (num 300)) ;; width) fresh_chart
  = Throw TypeError.
Proof. reflexivity. Qed.

Example render_fresh_chart :
  render fresh_chart
  = ([Dispatch "preRender" []],
     Throw (InvalidStateException
              "Mandatory attribute chart.dimension is missing on chart[#dc-chart1]")).
Proof. reflexivity. Qed.

(** A configured chart renders: with dimension and group set the mandatory
    check passes and the draw hook runs between [preRender] and the renderlet
    events (no svg yet, so no transition is scheduled). *)
Example render_configured_chart :
  trace render (set_group (Some tt) (set_dimension (Some a_dimension) fresh_chart))
  = [Dispatch "preRender" []; DoRender; Dispatch "pretransition" [];
     Dispatch "renderlet" []; Dispatch "postRender" []].
Proof. reflexivity. Qed.

(* ================================================================= *)
(** ** Further properties *)

(** *** The default remove and add handlers *)

Lemma remove_no_match (l : list value) (f : value) :
  (forall e, In e l -> matches e f = false) ->
  _defaultRemoveFilterHandler l f = l.
Proof.
  induction l as [| e l IH]; intro H; simpl; [reflexivity |].
  fold (matches e f). rewrite (H e (or_introl eq_refl)).
  f_equal. apply IH. intros x Hx. apply H. now right.
Qed.

(** X1.  The default remove handler splices out exactly the first element
    that compares equal-or-within to the value, and nothing else; when no
    element does, the list is returned as it is. *)
Theorem remove_splices_first_match (l : list value) (f : value) :
  ((forall e, In e l -> matches e f = false) ->
   _defaultRemoveFilterHandler l f = l) /\
  (forall l1 e l2,
     l = l1 ++ e :: l2 ->
     (forall x, In x l1 -> matches x f = false) ->
     matches e f = true ->
     _defaultRemoveFilterHandler l f = l1 ++ l2).
Proof.
  split; [apply remove_no_match |].
  intros l1 e l2 -> H1 He. induction l1 as [| x l1 IH]; simpl.
  - fold (matches e f). now rewrite He.
  - fold (matches x f). rewrite (H1 x (or_introl eq_refl)).
    f_equal. apply IH. intros y Hy. apply H1. now right.
Qed.

Lemma remove_splices_first_match_witness :
  _defaultRemoveFilterHandler
    [Data (num 7); Data (num 5); Data (num 9); Data (num 5)] (num 5)
  = [Data (num 7)] ++ [Data (num 9); Data (num 5)].
Proof.
  apply (remove_splices_first_match
           [Data (num 7); Data (num 5); Data (num 9); Data (num 5)] (num 5))
    with (e := Data (num 5)).
  - reflexivity.
  - intros x [<- | []]. reflexivity.
  - reflexivity.
Defined.

Lemma has_true_some_matches (l : list value) (v : value) :
  nullish v = false -> _defaultHasFilterHandler l v = true ->
  exists l1 e l2, l = l1 ++ e :: l2 /\
                  (forall x, In x l1 -> matches x v = false) /\
                  matches e v = true.
Proof.
  unfold _defaultHasFilterHandler. intros -> H.
  induction l as [| e l IH]; [discriminate |]. simpl in H.
  destruct (matches e v) eqn:He.
  - exists [], e, l. repeat split; auto. intros x [].
  - unfold matches in He. rewrite equal_or_within_sym, He in H. simpl in H.
    destruct (IH H) as (l1 & e' & l2 & -> & H1 & He').
    exists (e :: l1), e', l2. repeat split; auto.
    intros x [<- | Hx]; [exact He | now apply H1].
Qed.

(** X2.  With the default handlers, toggling a value that is neither null nor
    undefined is never a no-op: when the has-handler finds the value, the
    remove handler takes exactly one element out, and when it does not, the
    add handler appends the value at the end. *)
Theorem toggle_changes_length (c : Chart) (l : list value) (v : value) :
  default_handlers c -> nullish v = false ->
  (_defaultHasFilterHandler l v = true ->
   S (List.length (toggle c l v)) = List.length l) /\
  (_defaultHasFilterHandler l v = false -> toggle c l v = l ++ [v]).
Proof.
  intros (_ & Hh & Hr & Ha & _) Hn. unfold toggle. rewrite Hh, Hr, Ha.
  split; intro H; rewrite H; [| reflexivity].
  destruct (has_true_some_matches l v Hn H) as (l1 & e & l2 & -> & H1 & He).
  destruct (remove_splices_first_match (l1 ++ e :: l2) v) as [_ R].
  rewrite (R l1 e l2 eq_refl H1 He), !length_app. simpl. lia.
Qed.

Lemma toggle_changes_length_witness :
  S (List.length (toggle two_filters_chart [Data (num 5); Data (num 7)] (num 7)))
  = List.length [Data (num 5); Data (num 7)] /\
  toggle two_filters_chart [Data (num 5); Data (num 7)] (num 6)
  = [Data (num 5); Data (num 7)] ++ [Data (num 6)].
Proof.
  assert (H : default_handlers two_filters_chart) by (repeat split).
  split.
  - now apply (toggle_changes_length two_filters_chart
                 [Data (num 5); Data (num 7)] (num 7) H).
  - now apply (toggle_changes_length two_filters_chart
                 [Data (num 5); Data (num 7)] (num 6) H).
Defined.

Lemma nothing_matches_undefined (e : value) : matches e undefined = false.
Proof.
  unfold matches, le, ge. simpl.
  destruct (ToPrimitive e) as [| | [|] | [| z] | s]; reflexivity.
Qed.

(** X3.  [filter(undefined)], a call with an explicit undefined argument.
    The has-handler answers it by whether the list is non-empty and the
    remove handler finds nothing comparable to undefined: on an empty list
    undefined is added as a filter, on a non-empty list the list stays as it
    is.  Either way no [filtered] event is dispatched; without a dimension
    the call only refreshes the controls. *)
Theorem filter_undefined (c : Chart) :
  default_handlers c ->
  toggled c undefined
    = match filters c with [] => [undefined] | _ :: _ => filters c end /\
  (_dimension c = None ->
   filter undefined c
     = (controls (set_filters (toggled c undefined) c),
        Ok (tt, set_filters (toggled c undefined) c))).
Proof.
  intros (_ & Hh & Hr & Ha & _). split.
  - unfold toggled, toggle, filters. simpl. rewrite Hh, Hr, Ha.
    destruct (_filters c) as [| e l]; [reflexivity |].
    unfold _defaultHasFilterHandler. simpl nullish. cbn iota.
    change ((0 <? List.length (e :: l))%nat) with true. cbn iota.
    apply remove_no_match. intros x _. apply nothing_matches_undefined.
  - intro Hd. rewrite filter_run, applyFilters_run, Hd. reflexivity.
Qed.

Lemma filter_undefined_witness :
  toggled two_filters_chart undefined = filters two_filters_chart /\
  toggled fresh_chart undefined = [undefined].
Proof.
  split.
  - now apply (filter_undefined two_filters_chart).
  - now apply (filter_undefined fresh_chart).
Defined.

(** *** Toggling a group of values *)

Lemma has_none_matches (l : list value) (v : value) :
  nullish v = false ->
  (forall e, In e l -> matches v e = false) ->
  _defaultHasFilterHandler l v = false.
Proof.
  intros Hn H. unfold _defaultHasFilterHandler. rewrite Hn.
  induction l as [| e l IH]; [reflexivity |]. simpl.
  fold (matches v e). rewrite (H e (or_introl eq_refl)). simpl.
  apply IH. intros x Hx. apply H. now right.
Qed.

Lemma toggles_append (c : Chart) (inner : list datum) (l : list value) :
  default_handlers c ->
  all_defined (map Data inner) ->
  (forall f e, In f inner -> In e l -> matches (Data f) e = false) ->
  ForallOrdPairs (fun f g => matches (Data g) (Data f) = false) inner ->
  fold_left (fun fs f => toggle c fs (Data f)) inner l = l ++ map Data inner.
Proof.
  intros Hc. revert l.
  induction inner as [| f inner IH]; intros l Hd Hl Hp; simpl.
  - now rewrite app_nil_r.
  - inversion Hd as [| ? ? Hf Hd']; subst.
    inversion Hp as [| ? ? Hfi Hp']; subst.
    destruct (toggle_changes_length c l (Data f) Hc Hf) as [_ Hadd].
    rewrite Hadd.
    + rewrite IH; auto.
      * now rewrite <- app_assoc.
      * intros g e Hg He. apply in_app_or in He as [He | [<- | []]].
        -- apply Hl; [now right | exact He].
        -- rewrite Forall_forall in Hfi. now apply Hfi.
    + apply has_none_matches; [exact Hf |].
      intros e He. apply Hl; [now left | exact He].
Qed.

(** X4.  [filter([[a, b, c, ...]])]: with the default handlers, when the
    inner values are values (not null or undefined) none of which compares
    equal-or-within to a current filter or to another inner value, all of
    them are added, in their order, after the current filters.  Only the
    first inner array counts; further elements of the outer array are
    ignored. *)
Theorem filter_group_appends (c : Chart) (inner rest : list datum) :
  default_handlers c ->
  all_defined (filters c) ->
  all_defined (map Data inner) ->
  (forall f e, In f inner -> In e (filters c) -> matches (Data f) e = false) ->
  ForallOrdPairs (fun f g => matches (Data g) (Data f) = false) inner ->
  outcome (filter (Data (DArr (DArr inner :: rest)))) c
  = Ok (tt, set_filters (filters c ++ map Data inner) c).
Proof.
  intros Hc Hl Hd Hf Hp.
  assert (T : toggled c (Data (DArr (DArr inner :: rest)))
              = filters c ++ map Data inner).
  { unfold toggled. simpl. now apply toggles_append. }
  rewrite filter_returns; rewrite ?T; auto.
  - now destruct Hc.
  - apply Forall_app. now split.
Qed.

Lemma filter_group_appends_witness :
  outcome (filter (Data (DArr [DArr [DStr "MA"; DStr "TX"; DStr "ND"];
                               DStr "ignored"])))
          two_filters_chart
  = Ok (tt, set_filters
              ([Data (num 5); Data (num 7)]
                 ++ [Data (DStr "MA"); Data (DStr "TX"); Data (DStr "ND")])
              two_filters_chart).
Proof.
  apply (filter_group_appends two_filters_chart
           [DStr "MA"; DStr "TX"; DStr "ND"] [DStr "ignored"]).
  - repeat split.
  - repeat constructor.
  - repeat constructor.
  - intros f e [<- | [<- | [<- | []]]] [<- | [<- | []]]; reflexivity.
  - repeat constructor.
Defined.

(** *** What the dimension lets through and what hasFilter reports *)

(** X5.  For a list of filter values, every datum that [hasFilter] reports
    as filtered is accepted by the predicate the default filter handler
    installs with [filterFunction]; when no element carries an [isFiltered]
    method the two agree on every datum that is a value. *)
Theorem predicate_covers_hasFilter (l : list value) (d : datum) :
  all_defined l -> nullish d = false ->
  (_defaultHasFilterHandler l d = true ->
   filterFunction_predicate l d = Ok true) /\
  ((forall e, In e l -> predicate_tagged e = false) ->
   filterFunction_predicate l d = Ok (_defaultHasFilterHandler l d)).
Proof.
  intros Hl Hd. rewrite (filterFunction_predicate_accepts l d Hl).
  unfold _defaultHasFilterHandler. rewrite Hd. split.
  - intro H. f_equal. apply existsb_exists in H as (e & He & Hm).
    apply existsb_exists. exists e. split; [exact He |].
    unfold accepts. rewrite equal_or_within_sym, Hm. apply orb_true_r.
  - intro Ht. f_equal. induction l as [| e l IH]; [reflexivity |]. simpl.
    inversion Hl; subst. rewrite IH; auto.
    + f_equal. unfold accepts. rewrite (equal_or_within_sym e d).
      specialize (Ht e (or_introl eq_refl)). now destruct e.
    + intros x Hx. apply Ht. now right.
Qed.

Lemma predicate_covers_hasFilter_witness :
  filterFunction_predicate [Data (num 5); Data (DStr "7")] (num 7)
  = Ok (_defaultHasFilterHandler [Data (num 5); Data (DStr "7")] (num 7)).
Proof.
  apply (predicate_covers_hasFilter [Data (num 5); Data (DStr "7")] (num 7)).
  - repeat constructor.
  - reflexivity.
  - intros e [<- | [<- | []]]; reflexivity.
Defined.

(** A range lets 15 through although [hasFilter(15)] is false. *)
Example predicate_beyond_hasFilter :
  filterFunction_predicate [RangedFilter (num 10) (num 20); Data (num 3)] (num 15)
    = Ok true /\
  _defaultHasFilterHandler [RangedFilter (num 10) (num 20); Data (num 3)] (num 15)
    = false.
Proof. split; reflexivity. Qed.

(** *** Replacing the filter *)

(** X6.  With the default handlers, [replaceFilter(v)] for a single value
    [v] (not null, not undefined, not an array of arrays) returns normally
    and leaves exactly the list [[v]], whatever the filters were before. *)
Theorem replaceFilter_leaves_single (c : Chart) (v : value) :
  default_handlers c ->
  nullish v = false -> toggle_group v = None ->
  outcome (replaceFilter v) c = Ok (tt, set_filters [v] c).
Proof.
  intros Hc Hn Hg. pose proof Hc as (Hf & Hh & _ & Ha & Hr).
  unfold outcome. rewrite replaceFilter_run, Hr.
  unfold _defaultResetFilterHandler.
  assert (T : toggled (set_filters [] c) v = [v]).
  { rewrite toggled_single by assumption. unfold toggle. simpl.
    rewrite Hh, Ha. unfold _defaultHasFilterHandler. now rewrite Hn. }
  change (snd (filter v (set_filters [] c)))
    with (outcome (filter v) (set_filters [] c)).
  rewrite filter_returns; rewrite ?T; auto. now constructor.
Qed.

Lemma replaceFilter_leaves_single_witness :
  outcome (replaceFilter (RangedFilter (num 10) (num 20))) two_filters_chart
  = Ok (tt, set_filters [RangedFilter (num 10) (num 20)] two_filters_chart).
Proof.
  apply (replaceFilter_leaves_single two_filters_chart
           (RangedFilter (num 10) (num 20))).
  - repeat split.
  - reflexivity.
  - reflexivity.
Defined.

(** *** filter and the installed filter handler *)

(** X7.  With a dimension bound, [filter(v)] follows the installed filter
    handler.  When the handler throws, [filter(v)] throws the same exception
    right after the handler's own calls: no [filtered] event is dispatched
    and the controls are not touched.  When the handler returns a list, that
    list, not the toggled one, becomes the chart's filter list. *)
Theorem filter_follows_handler (c : Chart) (d : Dimension) (v : value) (t : Trace) :
  _dimension c = Some d -> has_filter d = true ->
  (forall e, _filterHandler c d (toggled c v) = (t, Throw e) ->
     filter v c = (CallFilterHandler (toggled c v) :: t, Throw e)) /\
  (forall fs, _filterHandler c d (toggled c v) = (t, Ok (Some fs)) ->
     filter v c
     = (CallFilterHandler (toggled c v) :: t ++ filtered_event v
          ++ controls (set_filters fs c),
        Ok (tt, set_filters fs c))).
Proof.
  intros Hd Hh. split; intros x H;
    rewrite filter_run, applyFilters_run, Hd, Hh, H; reflexivity.
Qed.

Lemma filter_follows_handler_witness :
  filter undefined bound_empty_chart
    = ([CallFilterHandler [undefined]], Throw TypeError) /\
  filter null pinned_chart
    = (CallFilterHandler [] :: [DimFilterExact (num 0)] ++ filtered_event null
         ++ controls (set_filters [Data (num 0)] pinned_chart),
       Ok (tt, set_filters [Data (num 0)] pinned_chart)).
Proof.
  split.
  - now apply (filter_follows_handler bound_empty_chart a_dimension undefined []).
  - now apply (filter_follows_handler pinned_chart a_dimension null
                 [DimFilterExact (num 0)]).
Defined.

(** *** Controls *)

(** X8.  What [filter] does to the reset and filter controls once the list
    is stored.  Without a root selection it makes no DOM call at all.  With
    one, it switches the controls on (clearing the style attribute and
    printing the filters with the filter printer) when [hasFilter()] holds,
    and otherwise switches them off ("hidden" or "none", the text set to
    [filter()]).  These calls are the last thing a returning [filter(v)]
    does. *)
Theorem filter_updates_controls (c : Chart) :
  (root_truthy c = false -> controls c = []) /\
  (root_truthy c = true -> hasFilter c undefined = true ->
   controls c
   = [Style ".reset" (controls_attribute c) None;
      Text ".filter" (DStr (_filterPrinter c (filters c)));
      Style ".filter" (controls_attribute c) None]) /\
  (root_truthy c = true -> hasFilter c undefined = false ->
   controls c
   = [Style ".reset" (controls_attribute c) (Some (controls_off_value c));
      Style ".filter" (controls_attribute c) (Some (controls_off_value c));
      Text ".filter" (filter_get c)]) /\
  (forall v c', outcome (filter v) c = Ok (tt, c') ->
     exists t, trace (filter v) c = t ++ controls c').
Proof.
  unfold controls, trace, root_truthy, root_is_null.
  split; [| split; [| split]].
  - destruct (_root c) eqn:Hr; intro H; try discriminate;
      destruct (hasFilter c undefined);
      unfold turnOnControls, turnOffControls, bind, this, ret, root_truthy;
      simpl; now rewrite Hr.
  - intros H Hf. rewrite Hf.
    unfold turnOnControls, bind, this, ret, emit, root_truthy.
    destruct (_root c) eqn:Hr; try discriminate. simpl. now rewrite ?Hr.
  - intros H Hf. rewrite Hf, andb_false_r.
    unfold turnOffControls, bind, this, ret, emit, root_truthy.
    destruct (_root c) eqn:Hr; try discriminate. simpl. now rewrite ?Hr.
  - intros v c'. unfold outcome. rewrite filter_run.
    destruct (applyFilters (toggled c v) c) as [t [[fs c0] | e]];
      [| discriminate].
    simpl. intros [= <-]. exists (t ++ filtered_event v).
    now rewrite <- app_assoc.
Qed.

Lemma filter_updates_controls_witness :
  controls fresh_chart = [] /\
  controls (set_filters [Data (num 5)] anchored_chart)
  = [Style ".reset" "display" None;
     Text ".filter" (DStr "");
     Style ".filter" "display" None] /\
  controls anchored_chart
  = [Style ".reset" "display" (Some "none");
     Style ".filter" "display" (Some "none");
     Text ".filter" null].
Proof.
  split; [| split].
  - now apply (filter_updates_controls fresh_chart).
  - now apply (filter_updates_controls (set_filters [Data (num 5)] anchored_chart)).
  - now apply (filter_updates_controls anchored_chart).
Defined.

(** *** Click *)

Lemma redrawGroup_records_call :
  redrawGroup_with (fun group => emit (RedrawAll group)) = redrawGroup.
Proof. reflexivity. Qed.

Lemma filter_keeps_group (v : value) (c c' : Chart) :
  outcome (filter v) c = Ok (tt, c') ->
  _commitHandler c' = _commitHandler c /\ _chartGroup c' = _chartGroup c.
Proof.
  unfold outcome. rewrite filter_run.
  destruct (applyFilters (toggled c v) c) as [t [[fs c0] | e]];
    [| discriminate].
  simpl. intros [= <-]. now split.
Qed.

(** X9.  A click on a datum toggles the datum's key with [filter] and then
    calls [redrawGroup], whatever [redrawAll] does to the charts of the
    group.  When [filter] throws, the click throws the same exception right
    after [filter]'s own events: neither the commit handler nor [redrawAll]
    is called.  When [filter] returns and no commit handler is bound,
    [redrawAll] is run once, for the chart's group, on the chart as [filter]
    left it and after everything [filter] did; what it returns or throws is
    what the click returns or throws.  When [filter] returns and a commit
    handler is bound that has not completed by the time it returns, the click
    calls the handler with [false] after [filter] and returns without any
    fan-out. *)
Theorem onClick_toggles_then_redraws (redrawAll : option string -> M unit)
    (keyAccessor : datum -> value) (d : datum) (c : Chart) :
  (forall e, outcome (filter (keyAccessor d)) c = Throw e ->
     onClick redrawAll keyAccessor d c
     = (trace (filter (keyAccessor d)) c, Throw e)) /\
  (forall c', outcome (filter (keyAccessor d)) c = Ok (tt, c') ->
     _commitHandler c = None ->
     onClick redrawAll keyAccessor d c
     = (trace (filter (keyAccessor d)) c ++ trace (redrawAll (_chartGroup c)) c',
        outcome (redrawAll (_chartGroup c)) c')) /\
  (forall c' handler, outcome (filter (keyAccessor d)) c = Ok (tt, c') ->
     _commitHandler c = Some handler -> during (handler false) = [] ->
     onClick redrawAll keyAccessor d c
     = (trace (filter (keyAccessor d)) c ++ [CallCommitHandler false],
        Ok (tt, c'))).
Proof.
  unfold onClick. split; [| split].
  - intros e Ho.
    now rewrite run_bind, (run_parts (filter (keyAccessor d)) c), Ho.
  - intros c' Ho Hc.
    destruct (filter_keeps_group _ _ _ Ho) as [Hc' Hg]. rewrite Hc in Hc'.
    rewrite run_bind, (run_parts (filter (keyAccessor d)) c), Ho.
    unfold trace at 2, outcome. unfold redrawGroup_with, bind, this.
    cbn [app fst snd]. rewrite Hc', Hg.
    unfold trace. now destruct (redrawAll (_chartGroup c) c') as [t r].
  - intros c' handler Ho Hc Hd.
    destruct (filter_keeps_group _ _ _ Ho) as [Hc' Hg]. rewrite Hc in Hc'.
    rewrite run_bind, (run_parts (filter (keyAccessor d)) c), Ho.
    unfold trace at 2, outcome. unfold redrawGroup_with, bind, this, emit.
    cbn [app fst snd]. rewrite Hc', Hd. reflexivity.
Qed.

Lemma onClick_toggles_then_redraws_witness :
  onClick failing_redrawAll (fun _ => undefined) (num 5) bound_empty_chart
    = ([CallFilterHandler [undefined]], Throw TypeError) /\
  outcome (onClick failing_redrawAll (fun d => Data d) (num 5)) bound_chart
    = Throw (InvalidStateException "redraw failed") /\
  outcome (onClick failing_redrawAll (fun d => Data d) (num 5))
    (set_commitHandler (Some pending_commit) bound_chart)
    = Ok (tt, set_filters [Data (num 3); Data (num 5)]
                (set_commitHandler (Some pending_commit) bound_chart)).
Proof.
  split; [| split].
  - destruct (onClick_toggles_then_redraws failing_redrawAll
                (fun _ => undefined) (num 5) bound_empty_chart) as (H & _).
    now apply (H TypeError).
  - destruct (onClick_toggles_then_redraws failing_redrawAll
                (fun d => Data d) (num 5) bound_chart) as (_ & H & _).
    unfold outcome.
    now rewrite (H (set_filters [Data (num 3); Data (num 5)] bound_chart)).
  - destruct (onClick_toggles_then_redraws failing_redrawAll
                (fun d => Data d) (num 5)
                (set_commitHandler (Some pending_commit) bound_chart))
      as (_ & _ & H).
    unfold outcome.
    now rewrite (H (set_filters [Data (num 3); Data (num 5)]
                      (set_commitHandler (Some pending_commit) bound_chart))
                   pending_commit).
Defined.

(** *** Rendering *)

Lemma activateRenderlets_run (event : string) (c : Chart) :
  event <> "" ->
  _activateRenderlets event c = (renderlet_events c event, Ok (tt, c)).
Proof.
  intro He. unfold _activateRenderlets, renderlet_events, fire_renderlet,
    bind, this, emit, ret; simpl.
  destruct (gt (_transitionDuration c) (num 0) && is_some (_svg c)); simpl;
    [reflexivity |].
  destruct (String.eqb event "") eqn:E; [| reflexivity].
  now apply String.eqb_eq in E.
Qed.

Lemma draw_and_finish_run (c : Chart) :
  (_doRender ;; finish_render) c
  = (DoRender :: (if is_some (_legend c) then [LegendRender] else [])
       ++ renderlet_events c "postRender",
     Ok (tt, c)).
Proof.
  unfold _doRender, finish_render. rewrite run_bind. cbn [emit app].
  unfold trace, outcome. rewrite run_bind. cbn [this app].
  unfold trace, outcome. rewrite run_bind.
  destruct (is_some (_legend c)); cbn [emit ret app];
    unfold trace, outcome;
    now rewrite activateRenderlets_run.
Qed.

(** X10.  [render()] returns normally exactly when every mandatory attribute
    is present (or the mandatory list has been unset).  When it returns, the
    chart is as before except that both geometry caches are empty: render
    itself stores nothing else. *)
Theorem render_returns_iff (c : Chart) :
  ((exists c', outcome render c = Ok (tt, c')) <-> all_present c) /\
  (all_present c -> outcome render c = Ok (tt, cleared c)).
Proof.
  assert (P : all_present c -> outcome render c = Ok (tt, cleared c)).
  { intro H. unfold outcome, render.
    rewrite (render_with_present _doRender c H). cbn [snd].
    unfold outcome. now rewrite draw_and_finish_run. }
  split; [| exact P]. split; [| intro H; eexists; now apply P].
  intros (c' & Ho). unfold all_present.
  destruct (_mandatoryAttributesList c) as [l |] eqn:Hl; [| exact I].
  destruct (check_all (cleared c) l)
    as [[Hall _] | (before & a & after & El & _ & Ha & E)]; [exact Hall |].
  exfalso. revert Ho.
  unfold outcome, render, render_with, bind, assign, emit, this; simpl.
  rewrite Hl. fold (cleared c). rewrite E. discriminate.
Qed.

Lemma render_returns_iff_witness :
  all_present configured_chart /\
  outcome render configured_chart = Ok (tt, cleared configured_chart).
Proof.
  assert (H : all_present configured_chart) by (repeat constructor).
  split; [exact H |].
  now apply (render_returns_iff configured_chart).
Defined.

(** X11.  The events of a successful [render()], in order: [preRender], the
    draw hook, the legend if one is attached, [pretransition], and then
    either one scheduled transition (duration positive and an svg present),
    in which case [renderlet] and [postRender] are left to the transition's
    end, or [renderlet] followed by [postRender] at once.  The transition-end
    callback dispatches [renderlet] before [postRender]. *)
Theorem render_events (c : Chart) :
  all_present c ->
  trace render c
  = [Dispatch "preRender" []; DoRender]
      ++ (if is_some (_legend c) then [LegendRender] else [])
      ++ Dispatch "pretransition" []
      :: (if gt (_transitionDuration c) (num 0) && is_some (_svg c)
          then [ScheduleTransition (_transitionDuration c) (_transitionDelay c)
                  (Some "postRender")]
          else [Dispatch "renderlet" []; Dispatch "postRender" []]) /\
  fire_renderlet "postRender" c
  = ([Dispatch "renderlet" []; Dispatch "postRender" []], Ok (tt, c)).
Proof.
  intro H. split; [| reflexivity].
  unfold trace, render. rewrite (render_with_present _doRender c H). cbn [fst].
  unfold trace. rewrite draw_and_finish_run. reflexivity.
Qed.

Lemma render_events_witness :
  all_present (set_svg (Some tt) configured_chart) /\
  trace render (set_svg (Some tt) configured_chart)
  = [Dispatch "preRender" []; DoRender; Dispatch "pretransition" [];
     ScheduleTransition (num 750) (num 0) (Some "postRender")].
Proof.
  assert (H : all_present (set_svg (Some tt) configured_chart))
    by (repeat constructor).
  split; [exact H |].
  now apply (render_events (set_svg (Some tt) configured_chart)).
Defined.

(** *** The default size calculators *)

(** X12.  The default width (height) calculator never yields less than the
    minimum width (height).  With a numeric minimum [m]: a measured numeric
    size [w] is returned when it is non-zero and greater than [m], otherwise
    [m] is; without an anchor node, or with a node that cannot be measured,
    the result is [m] and nothing is measured.  The chart is not changed. *)
Theorem defaultCalc_at_least_min (c : Chart) (element : option Element) (m : Z) :
  (_minWidth c = num m ->
   (forall e w h, element = Some e ->
      boundingClientRect e = Some (num w, h) ->
      _defaultWidthCalc element c
        = ([GetBoundingClientRect], Ok (num (at_least m w), c)) /\
      m <= at_least m w) /\
   ((element = None \/
     exists e, element = Some e /\ boundingClientRect e = None) ->
    _defaultWidthCalc element c = ([], Ok (num m, c)))) /\
  (_minHeight c = num m ->
   (forall e w h, element = Some e ->
      boundingClientRect e = Some (w, num h) ->
      _defaultHeightCalc element c
        = ([GetBoundingClientRect], Ok (num (at_least m h), c)) /\
      m <= at_least m h) /\
   ((element = None \/
     exists e, element = Some e /\ boundingClientRect e = None) ->
    _defaultHeightCalc element c = ([], Ok (num m, c)))).
Proof.
  assert (B : forall w, m <= at_least m w).
  { intro w. unfold at_least.
    destruct (negb (w =? 0) && (m <? w)) eqn:E; [| lia].
    apply andb_true_iff in E as [_ E]. apply Z.ltb_lt in E. lia. }
  split; intro Hm; split.
  - intros e w h -> Hb. split; [| apply B].
    unfold _defaultWidthCalc, measure, bind, this, emit, ret, at_least, gt, lt;
      simpl.
    rewrite Hb, Hm. simpl. now destruct (w =? 0), (m <? w).
  - intros [-> | (e & -> & Hb)];
      unfold _defaultWidthCalc, measure, bind, this, emit, ret; simpl;
      rewrite ?Hb, Hm; reflexivity.
  - intros e w h -> Hb. split; [| apply B].
    unfold _defaultHeightCalc, measure, bind, this, emit, ret, at_least, gt, lt;
      simpl.
    rewrite Hb, Hm. simpl. now destruct (h =? 0), (m <? h).
  - intros [-> | (e & -> & Hb)];
      unfold _defaultHeightCalc, measure, bind, this, emit, ret; simpl;
      rewrite ?Hb, Hm; reflexivity.
Qed.

Lemma defaultCalc_at_least_min_witness :
  _defaultWidthCalc (Some a_div) fresh_chart
    = ([GetBoundingClientRect], Ok (num 500, fresh_chart)) /\
  _defaultWidthCalc None fresh_chart = ([], Ok (num 200, fresh_chart)).
Proof.
  destruct (defaultCalc_at_least_min fresh_chart (Some a_div) 200) as [[H _] _];
    [reflexivity |].
  destruct (defaultCalc_at_least_min fresh_chart None 200) as [[_ H'] _];
    [reflexivity |].
  split.
  - now apply (H a_div 500 (num 320)).
  - apply H'. now left.
Defined.

(** *** Height, and calculators given as functions *)

Lemma times_height_cached (n : nat) (c : Chart) :
  isNumber (_height c) = true ->
  times n height c = ([], Ok (repeat (_height c) n, c)).
Proof.
  intro H. induction n as [| n IH]; simpl; [reflexivity |].
  rewrite run_bind, (height_cached c H). simpl.
  unfold trace, outcome. rewrite run_bind, IH. reflexivity.
Qed.

(** X13.  The height cache on an anchored chart.  After [height(z)] with a
    non-zero number [z], any number of [height()] calls return [z] and leave
    no trace; after [height(v)] with a falsy [v], the next [height()]
    returns, and caches, what the default height calculator yields for the
    anchor node. *)
Theorem height_cache (c : Chart) (r : Selection) :
  _root c = SlotObj r ->
  (forall z n, z <> 0 ->
     exists c', (set_height_arg (SizeValue (num z)) ;; times n height) c
                = ([], Ok (repeat (num z) n, c'))) /\
  (forall v : datum, truthy v = false ->
     exists h t,
       _defaultHeightCalc (node r) c = (t, Ok (h, c)) /\
       (set_height_arg (SizeValue v) ;; height) c
         = (t, Ok (h, set_height h (set_heightCalc DefaultCalc c)))).
Proof.
  intro Hr. split.
  - intros z n Hz.
    assert (Ht : truthy (num z) = true).
    { simpl. apply negb_true_iff. now apply Z.eqb_neq. }
    destruct n as [| n]; [eexists; reflexivity |].
    set (c1 := set_height DUndefined (set_heightCalc (ConstantCalc (num z)) c)).
    assert (W : height c1 = ([], Ok (num z, set_height (num z) c1))).
    { unfold height. run_step. rewrite run_bind.
      change (isNumber (_height c1)) with false. cbn [negb].
      rewrite run_bind, (root_node_run c1 r Hr). reflexivity. }
    assert (S : set_height_arg (SizeValue (num z)) c = ([], Ok (tt, c1))).
    { unfold set_height_arg, calc_of. now rewrite Ht. }
    exists (set_height (num z) c1).
    rewrite run_bind, S. cbn [app]. rewrite <- run_parts.
    cbn [times]. rewrite run_bind, W. cbn [app].
    unfold trace, outcome. rewrite run_bind.
    rewrite (times_height_cached n (set_height (num z) c1) eq_refl).
    reflexivity.
  - intros v Hv.
    set (c1 := set_height DUndefined (set_heightCalc DefaultCalc c)).
    assert (D : forall c0, _minHeight c0 = _minHeight c ->
              exists h t, _defaultHeightCalc (node r) c = (t, Ok (h, c)) /\
                          _defaultHeightCalc (node r) c0 = (t, Ok (h, c0))).
    { intros c0 Hm. unfold _defaultHeightCalc, measure, bind, this, emit, ret.
      destruct (node r) as [e |]; [destruct (boundingClientRect e) |];
        simpl; rewrite Hm; do 2 eexists; split; reflexivity. }
    destruct (D c1 eq_refl) as (h & t & E & E1).
    exists h, t. split; [exact E |].
    assert (S : set_height_arg (SizeValue v) c = ([], Ok (tt, c1))).
    { unfold set_height_arg, calc_of. now rewrite Hv. }
    assert (G : (element <- root_node;;
                 h0 <- _defaultHeightCalc element;;
                 assign (set_height h0)) c1
                = (t, Ok (tt, set_height h c1))).
    { rewrite run_bind, (root_node_run c1 r Hr). cbn [app].
      rewrite <- run_parts, run_bind, E1. cbn. now rewrite app_nil_r. }
    rewrite run_bind, S. cbn [app]. rewrite <- run_parts.
    unfold height. run_step. rewrite run_bind.
    change (isNumber (_height c1)) with false. cbn [negb].
    rewrite G. cbn. now rewrite app_nil_r.
Qed.

Lemma height_cache_witness :
  (exists c', (set_height_arg (SizeValue (num 250)) ;; times 2 height) anchored_chart
              = ([], Ok ([num 250; num 250], c'))) /\
  (exists h t,
     _defaultHeightCalc (Some a_div) anchored_chart = (t, Ok (h, anchored_chart)) /\
     (set_height_arg (SizeValue DNull) ;; height) anchored_chart
       = (t, Ok (h, set_height h (set_heightCalc DefaultCalc anchored_chart)))).
Proof.
  destruct (height_cache anchored_chart {| node := Some a_div |} eq_refl)
    as [Hz Hnull].
  split.
  - apply (Hz 250 2%nat). lia.
  - now apply (Hnull DNull).
Defined.

(** X14.  A width calculator given as a function, on an anchored chart.
    When the function yields a number it is called once, by the first
    [width()], and the following calls return that number from the cache.
    When it yields anything else (NaN, a string, undefined) the result is
    never taken as cached: every [width()] call calls the function again. *)
Theorem width_function_calls (c : Chart) (r : Selection)
    (f : option Element -> datum) (n : nat) :
  _root c = SlotObj r ->
  (isNumber (f (node r)) = true ->
   exists c', (set_width_arg (SizeFunction f) ;; times (S n) width) c
              = ([CallCalc], Ok (repeat (f (node r)) (S n), c'))) /\
  (isNumber (f (node r)) = false ->
   exists c', (set_width_arg (SizeFunction f) ;; times (S n) width) c
              = (repeat CallCalc (S n), Ok (repeat (f (node r)) (S n), c'))).
Proof.
  intro Hr.
  set (c1 := set_width DUndefined (set_widthCalc (FunctionCalc f) c)).
  assert (Hs : forall k, (set_width_arg (SizeFunction f) ;; times k width) c
                         = times k width c1).
  { intro k. rewrite run_bind. cbn. now rewrite <- run_parts. }
  split; intro Hf; rewrite Hs.
  - exists (set_width (f (node r)) c1). cbn [times].
    rewrite run_bind, (width_recomputes c1 r f Hr eq_refl eq_refl).
    unfold trace, outcome. rewrite run_bind.
    rewrite (times_width_cached n (set_width (f (node r)) c1) Hf).
    reflexivity.
  - now apply (times_width_recomputes (S n) c1 r f).
Qed.

Lemma width_function_calls_witness :
  (exists c', (set_width_arg (SizeFunction (fun _ => num 640)) ;; times 3 width)
                anchored_chart
              = ([CallCalc], Ok ([num 640; num 640; num 640], c'))) /\
  (exists c', (set_width_arg (SizeFunction (fun _ => DStr "640px")) ;; times 3 width)
                anchored_chart
              = ([CallCalc; CallCalc; CallCalc],
                 Ok ([DStr "640px"; DStr "640px"; DStr "640px"], c'))).
Proof.
  split.
  - now apply (width_function_calls anchored_chart {| node := Some a_div |}
                 (fun _ => num 640) 2).
  - now apply (width_function_calls anchored_chart {| node := Some a_div |}
                 (fun _ => DStr "640px") 2).
Defined.

(** *** Every completion of a commit handler counts *)

Section CallbackTrace.

Variable callback : value * value -> M unit.
Variable pass : Chart -> Event.

Hypothesis callback_run : forall error result c,
  callback (error, result) c =
    ((if truthy error then [ConsoleLog error] else [pass c]), Ok (tt, c)).

Lemma callbacks_trace (l : list (value * value)) (c : Chart) :
  forEach callback l c
  = (flat_map (fun p => if truthy (fst p) then [ConsoleLog (fst p)]
                        else [pass c]) l,
     Ok (tt, c)).
Proof.
  induction l as [| [error result] l IH]; simpl; [reflexivity |].
  rewrite run_bind, callback_run. cbn [fst snd].
  unfold trace, outcome. now rewrite IH.
Qed.

Hypothesis pass_fan_out : forall c, fan_out (pass c) = true.
Hypothesis pass_no_log : forall c, logged [pass c] = [].

Lemma completions_fan_out (l : list (value * value)) (c : Chart) :
  fan_out_calls
    (flat_map (fun p => if truthy (fst p) then [ConsoleLog (fst p)]
                        else [pass c]) l)
  = repeat (pass c) (successes l).
Proof.
  unfold fan_out_calls, successes.
  induction l as [| [error result] l IH]; simpl; [reflexivity |].
  rewrite filter_app, IH.
  destruct (truthy error); simpl; [reflexivity |].
  now rewrite pass_fan_out.
Qed.

Lemma completions_logged (l : list (value * value)) (c : Chart) :
  logged
    (flat_map (fun p => if truthy (fst p) then [ConsoleLog (fst p)]
                        else [pass c]) l)
  = errors l.
Proof.
  unfold errors.
  induction l as [| [error result] l IH]; simpl; [reflexivity |].
  unfold logged in *. rewrite flat_map_app, IH.
  destruct (truthy error); simpl; [reflexivity |].
  pose proof (pass_no_log c) as P. unfold logged in P. simpl in P.
  rewrite app_nil_r in P. now rewrite P.
Qed.

End CallbackTrace.

Lemma redrawGroup_callback_run (error result : value) (c : Chart) :
  redrawGroup_callback (error, result) c
  = ((if truthy error then [ConsoleLog error]
      else [RedrawAll (_chartGroup c)]), Ok (tt, c)).
Proof. unfold redrawGroup_callback. now destruct (truthy error). Qed.

Lemma renderGroup_callback_run (error result : value) (c : Chart) :
  renderGroup_callback (error, result) c
  = ((if truthy error then [ConsoleLog error]
      else [RenderAll (_chartGroup c)]), Ok (tt, c)).
Proof. unfold renderGroup_callback. now destruct (truthy error). Qed.

Lemma group_call_run (c : Chart) (handler : CommitHandler) :
  _commitHandler c = Some handler ->
  trace (redrawGroup ;; redrawGroup_settle) c
    = CallCommitHandler false
        :: flat_map (fun p => if truthy (fst p) then [ConsoleLog (fst p)]
                              else [RedrawAll (_chartGroup c)])
             (completions (handler false)) /\
  trace (renderGroup ;; renderGroup_settle) c
    = CallCommitHandler false
        :: flat_map (fun p => if truthy (fst p) then [ConsoleLog (fst p)]
                              else [RenderAll (_chartGroup c)])
             (completions (handler false)).
Proof.
  intro H. unfold completions. rewrite !flat_map_app.
  pose proof (callbacks_trace redrawGroup_callback
                (fun c => RedrawAll (_chartGroup c)) redrawGroup_callback_run)
    as Rd.
  pose proof (callbacks_trace renderGroup_callback
                (fun c => RenderAll (_chartGroup c)) renderGroup_callback_run)
    as Rr.
  split.
  - unfold trace, outcome, redrawGroup, redrawGroup_settle, bind, this, emit.
    cbn [fst snd app]. rewrite H, Rd. cbn [fst snd app]. now rewrite H, Rd.
  - unfold trace, outcome, renderGroup, renderGroup_settle, bind, this, emit.
    cbn [fst snd app]. rewrite H, Rr. cbn [fst snd app]. now rewrite H, Rr.
Qed.

(** X15.  With a commit handler bound, every completion it delivers counts,
    whenever it is delivered.  Over the call and the handler's later
    completions, the fan-out calls of [redrawGroup()] are one [redrawAll] of
    the chart's group for each completion without error, and nothing else
    (for [renderGroup()]: one [renderAll]); so two for a handler that
    completes twice and none for one that does not complete.  What is
    written to the console is the errors of the completions, in the order
    they were delivered. *)
Theorem commit_completions (c : Chart) (handler : CommitHandler) :
  _commitHandler c = Some handler ->
  (fan_out_calls (trace (redrawGroup ;; redrawGroup_settle) c)
     = repeat (RedrawAll (_chartGroup c))
         (successes (completions (handler false))) /\
   logged (trace (redrawGroup ;; redrawGroup_settle) c)
     = errors (completions (handler false))) /\
  (fan_out_calls (trace (renderGroup ;; renderGroup_settle) c)
     = repeat (RenderAll (_chartGroup c))
         (successes (completions (handler false))) /\
   logged (trace (renderGroup ;; renderGroup_settle) c)
     = errors (completions (handler false))).
Proof.
  intro H. destruct (group_call_run c handler H) as [Ed Er].
  rewrite Ed, Er. split; split.
  - apply (completions_fan_out (fun c => RedrawAll (_chartGroup c))).
    reflexivity.
  - apply (completions_logged (fun c => RedrawAll (_chartGroup c))).
    reflexivity.
  - apply (completions_fan_out (fun c => RenderAll (_chartGroup c))).
    reflexivity.
  - apply (completions_logged (fun c => RenderAll (_chartGroup c))).
    reflexivity.
Qed.

Lemma commit_completions_witness :
  fan_out_calls (trace (redrawGroup ;; redrawGroup_settle)
                   (set_commitHandler (Some twice_commit) fresh_chart))
    = [RedrawAll (Some "__default_chart_group__");
       RedrawAll (Some "__default_chart_group__")] /\
  fan_out_calls (trace (renderGroup ;; renderGroup_settle)
                   (set_commitHandler (Some pending_commit) fresh_chart)) = [] /\
  logged (trace (renderGroup ;; renderGroup_settle)
            (set_commitHandler (Some failing_commit) fresh_chart))
    = [Data (DStr "commit failed")].
Proof.
  split; [| split].
  - now apply (commit_completions
                 (set_commitHandler (Some twice_commit) fresh_chart) twice_commit).
  - now apply (commit_completions
                 (set_commitHandler (Some pending_commit) fresh_chart)
                 pending_commit).
  - now apply (commit_completions
                 (set_commitHandler (Some failing_commit) fresh_chart)
                 failing_commit).
Defined.

(** *** The anchor name *)

Lemma replace_hash_first (a b : string) :
  contains_hash a = false ->
  replace_hash (a ++ String "#" b)%string = (a ++ b)%string.
Proof.
  induction a as [| ch a IH]; simpl; intro H.
  - reflexivity.
  - apply orb_false_iff in H as [Hc Ha]. rewrite Hc. f_equal. now apply IH.
Qed.

Lemma replace_hash_none (s : string) :
  contains_hash s = false -> replace_hash s = s.
Proof.
  induction s as [| ch s IH]; simpl; intro H; [reflexivity |].
  apply orb_false_iff in H as [Hc Hs]. rewrite Hc. f_equal. now apply IH.
Qed.

(** X16.  [anchorName()].  For a chart anchored by selector text the name is
    that text with its first [#] dropped, and only the first (so ["#chart"]
    gives ["chart"]); text without [#] is the name as it stands.  For a chart
    anchored on a DOM node it is the node's id.  Without anchor, with empty
    selector text or with a node that has no id, it is ["dc-chart"] followed
    by the chart's numeric id. *)
Theorem anchorName_cases (c : Chart) :
  (forall a b, _anchor c = Some (AnchorSelector (a ++ String "#" b)%string) ->
     contains_hash a = false -> anchorName c = (a ++ b)%string) /\
  (forall s, _anchor c = Some (AnchorSelector s) -> s <> "" ->
     contains_hash s = false -> anchorName c = s) /\
  (forall e, _anchor c = Some (AnchorNode e) -> id e <> "" ->
     anchorName c = id e) /\
  (_anchor c = None \/ _anchor c = Some (AnchorSelector "") \/
   (exists e, _anchor c = Some (AnchorNode e) /\ id e = "") ->
   anchorName c = ("dc-chart" ++ NumberToString (Num (__dcFlag__ c)))%string).
Proof.
  unfold anchorName, chartID. split; [| split; [| split]].
  - intros a b -> Ha.
    assert (E : String.eqb (a ++ String "#" b) "" = false)
      by (now destruct a).
    rewrite E. simpl. now apply replace_hash_first.
  - intros s -> Hs Hh.
    destruct (String.eqb s "") eqn:E.
    + now apply String.eqb_eq in E.
    + simpl. now apply replace_hash_none.
  - intros e -> He. destruct (String.eqb (id e) "") eqn:E.
    + now apply String.eqb_eq in E.
    + reflexivity.
  - intros [-> | [-> | (e & -> & ->)]]; reflexivity.
Qed.

Lemma anchorName_cases_witness :
  anchorName (selector_chart "#chart") = "chart" /\
  anchorName (selector_chart "div#pie #legend") = "divpie #legend" /\
  anchorName anchored_chart = "chart" /\
  anchorName fresh_chart = "dc-chart1".
Proof.
  split; [| split; [| split]].
  - now apply (anchorName_cases (selector_chart "#chart")) with (a := "").
  - now apply (anchorName_cases (selector_chart "div#pie #legend"))
      with (a := "div") (b := "pie #legend").
  - destruct (anchorName_cases anchored_chart) as (_ & _ & H & _).
    now apply (H a_div).
  - destruct (anchorName_cases fresh_chart) as (_ & _ & _ & H).
    apply H. now left.
Defined.

(** *** Ordered groups *)

Section OrderedGroupsFacts.

Variable A : Type.
Variable _ordering : A -> value.
Variable k : A -> Z.

Lemma sort_insert_perm (x : A) (l : list A) :
  Permutation (x :: l) (sort_insert A _ordering x l).
Proof.
  induction l as [| y r IH]; simpl.
  - apply Permutation_refl.
  - destruct (sorts_after A _ordering x y).
    + eapply perm_trans; [apply perm_swap | apply perm_skip, IH].
    + apply Permutation_refl.
Qed.

Lemma sort_perm (l : list A) : Permutation l (sort A _ordering l).
Proof.
  induction l as [| x r IH]; simpl.
  - constructor.
  - eapply perm_trans; [apply perm_skip, IH | apply sort_insert_perm].
Qed.

Lemma sorts_after_numeric (a b : A) :
  ordering_key _ordering a = Num (k a) ->
  ordering_key _ordering b = Num (k b) ->
  sorts_after A _ordering a b = (k b <? k a).
Proof.
  intros Ha Hb. unfold sorts_after, compareFn. rewrite Ha, Hb. simpl.
  destruct (Z.ltb_spec 0 (k a - k b)), (Z.ltb_spec (k b) (k a));
    try reflexivity; lia.
Qed.

Lemma sort_insert_sorted (x : A) (l : list A) :
  (forall a, In a (x :: l) -> ordering_key _ordering a = Num (k a)) ->
  StronglySorted (fun a b => k a <= k b) l ->
  StronglySorted (fun a b => k a <= k b) (sort_insert A _ordering x l).
Proof.
  induction l as [| y r IH]; intros K Hs; simpl.
  - constructor; constructor.
  - inversion Hs as [| y' r' Hr Hy]; subst.
    rewrite sorts_after_numeric by (apply K; simpl; auto).
    destruct (Z.ltb_spec (k y) (k x)).
    + constructor.
      * apply IH; [| exact Hr].
        intros a [<- | Ha]; apply K; simpl; auto.
      * apply Forall_forall. intros z Hz.
        apply Permutation_in with (l' := x :: r) in Hz;
          [| apply Permutation_sym, sort_insert_perm].
        destruct Hz as [<- | Hz]; [lia |].
        rewrite Forall_forall in Hy. now apply Hy.
    + constructor; [exact Hs |]. constructor; [assumption |].
      eapply Forall_impl; [| exact Hy]. simpl; intros; lia.
Qed.

Lemma sort_numeric_keys (l : list A) :
  (forall a, In a l -> ordering_key _ordering a = Num (k a)) ->
  forall a, In a (sort A _ordering l) -> ordering_key _ordering a = Num (k a).
Proof.
  intros K a Ha. apply K.
  apply Permutation_in with (l := sort A _ordering l);
    [apply Permutation_sym, sort_perm | exact Ha].
Qed.

Lemma sort_sorted (l : list A) :
  (forall a, In a l -> ordering_key _ordering a = Num (k a)) ->
  StronglySorted (fun a b => k a <= k b) (sort A _ordering l).
Proof.
  induction l as [| x r IH]; simpl; intro K.
  - constructor.
  - apply sort_insert_sorted.
    + intros a [<- | Ha]; [apply K; simpl; auto |].
      apply sort_numeric_keys with (l := r); [| exact Ha].
      intros b Hb. apply K. simpl; auto.
    + apply IH. intros a Ha. apply K. simpl; auto.
Qed.

Lemma sort_insert_stable (z : Z) (x : A) (l : list A) :
  (forall a, In a (x :: l) -> ordering_key _ordering a = Num (k a)) ->
  List.filter (fun a => k a =? z) (sort_insert A _ordering x l)
    = List.filter (fun a => k a =? z) (x :: l).
Proof.
  induction l as [| y r IH]; intro K; [reflexivity |].
  cbn [sort_insert]. rewrite sorts_after_numeric by (apply K; simpl; auto).
  destruct (Z.ltb_spec (k y) (k x)); [| reflexivity].
  cbn [List.filter]. rewrite IH by (intros a [<- | Ha]; apply K; simpl; auto).
  cbn [List.filter].
  destruct (Z.eqb_spec (k x) z), (Z.eqb_spec (k y) z); try reflexivity; lia.
Qed.

Lemma sort_stable (z : Z) (l : list A) :
  (forall a, In a l -> ordering_key _ordering a = Num (k a)) ->
  List.filter (fun a => k a =? z) (sort A _ordering l)
    = List.filter (fun a => k a =? z) l.
Proof.
  induction l as [| x r IH]; intro K; [reflexivity |].
  cbn [sort]. rewrite sort_insert_stable.
  - cbn [List.filter]. rewrite IH; [reflexivity |].
    intros a Ha. apply K. simpl; auto.
  - intros a [<- | Ha]; [apply K; simpl; auto |].
    apply sort_numeric_keys with (l := r); [| exact Ha].
    intros b Hb. apply K. simpl; auto.
Qed.

Lemma sort_unchanged (l : list A) :
  StronglySorted (fun a b => sorts_after A _ordering a b = false) l ->
  sort A _ordering l = l.
Proof.
  induction 1 as [| x r Hs IH Hf]; simpl; [reflexivity |].
  rewrite IH. destruct r as [| y r']; simpl; [reflexivity |].
  inversion Hf as [| ? ? Hxy ?]; subst. now rewrite Hxy.
Qed.

Lemma ascending_unchanged (l : list A) :
  (forall a, In a l -> ordering_key _ordering a = Num (k a)) ->
  StronglySorted (fun a b => k a <= k b) l ->
  sort A _ordering l = l.
Proof.
  intros K Hs. apply sort_unchanged.
  induction Hs as [| x r Hs IH Hf]; constructor.
  - apply IH. intros a Ha. apply K. simpl; auto.
  - rewrite Forall_forall in *. intros z Hz.
    rewrite sorts_after_numeric by (apply K; simpl; auto).
    specialize (Hf z Hz). simpl in Hf. apply Z.ltb_ge. exact Hf.
Qed.

Lemma no_number_unchanged (l : list A) :
  (forall a, In a l -> ordering_key _ordering a = NaN) ->
  sort A _ordering l = l.
Proof.
  intro K. apply sort_unchanged.
  induction l as [| x r IH]; constructor.
  - apply IH. intros a Ha. apply K. simpl; auto.
  - apply Forall_forall. intros z Hz.
    unfold sorts_after, compareFn. rewrite (K x) by (simpl; auto).
    reflexivity.
Qed.

End OrderedGroupsFacts.

(** X17.  [_computeOrderedGroups(data)], when every record's ordering value
    is a number: the result holds exactly the records of [data] (a
    permutation), in ascending order of the ordering value, and records with
    equal ordering values keep the relative order they have in [data]. *)
Theorem computeOrderedGroups_ascending (A : Type) (_ordering : A -> value)
    (k : A -> Z) (data : list A) :
  (forall a, In a data -> ordering_key _ordering a = Num (k a)) ->
  Permutation data (_computeOrderedGroups _ordering data) /\
  StronglySorted (fun a b => k a <= k b)
    (_computeOrderedGroups _ordering data) /\
  (forall z, List.filter (fun a => k a =? z)
               (_computeOrderedGroups _ordering data)
             = List.filter (fun a => k a =? z) data).
Proof.
  intro K. unfold _computeOrderedGroups. split; [| split].
  - apply sort_perm.
  - now apply sort_sorted.
  - intro z. now apply sort_stable.
Qed.

Lemma computeOrderedGroups_ascending_witness :
  _computeOrderedGroups by_value some_groups
    = [("b", num 1); ("a", num 2); ("d", num 3); ("c", num 3)]%string /\
  StronglySorted (fun a b => number_of a <= number_of b)
    (_computeOrderedGroups by_value some_groups).
Proof.
  split; [reflexivity |].
  apply (computeOrderedGroups_ascending _ by_value number_of some_groups).
  intros a [<- | [<- | [<- | [<- | []]]]]; reflexivity.
Defined.

(** X18.  [_computeOrderedGroups(data)] returns the records in the order of
    [data] when no record's ordering value converts to a number (the
    subtraction is NaN for every pair: with keys such as ["apple"] and the
    default [pluck('key')] nothing is sorted), and when the ordering values
    are numbers already in ascending order; hence ordering an ordered result
    again changes nothing. *)
Theorem computeOrderedGroups_unchanged (A : Type) (_ordering : A -> value)
    (data : list A) :
  ((forall a, In a data -> ordering_key _ordering a = NaN) ->
   _computeOrderedGroups _ordering data = data) /\
  (forall k : A -> Z,
     (forall a, In a data -> ordering_key _ordering a = Num (k a)) ->
     (StronglySorted (fun a b => k a <= k b) data ->
      _computeOrderedGroups _ordering data = data) /\
     _computeOrderedGroups _ordering (_computeOrderedGroups _ordering data)
       = _computeOrderedGroups _ordering data).
Proof.
  unfold _computeOrderedGroups. split; [apply no_number_unchanged |].
  intros k K. split.
  - now apply ascending_unchanged with (k := k).
  - apply ascending_unchanged with (k := k).
    + now apply sort_numeric_keys.
    + now apply sort_sorted.
Qed.

Lemma computeOrderedGroups_unchanged_witness :
  _computeOrderedGroups by_key some_groups = some_groups /\
  _computeOrderedGroups by_value (_computeOrderedGroups by_value some_groups)
    = _computeOrderedGroups by_value some_groups.
Proof.
  split.
  - apply (computeOrderedGroups_unchanged _ by_key some_groups).
    intros a [<- | [<- | [<- | [<- | []]]]]; reflexivity.
  - apply (computeOrderedGroups_unchanged _ by_value some_groups) with
      (k := number_of).
    intros a [<- | [<- | [<- | [<- | []]]]]; reflexivity.
Defined.
